(** * duckdbfastapi: a shallow embedding of [duckdbfastapi/main.py]

    The development follows the layout of the Python module:
    the JSON structural count, the path helpers, the catalog builder,
    the endpoint factory with its request handlers, and [run_fastapi].
    The file system, the JSON parser and the DuckDB connection are
    external; they appear as read-only oracles gathered in [Env]. *)

From Stdlib Require Import ZArith String Ascii Bool Lia.
From Stdlib Require Import List Sorting.Sorted Sorting.Permutation.
From Stdlib Require Import Numbers.DecimalString.
Import ListNotations.

Set Warnings "-register-all".

Open Scope string_scope.
Open Scope Z_scope.

(* ================================================================= *)
(** ** Python values and exceptions *)

(** Values produced by [json.load] and by DuckDB's [fetchall]:
    [None], [bool], [int], [float], [str], [list] and [dict].  A float
    is kept as its [repr]; a [dict] keeps its insertion order. *)
Inductive json : Type :=
| JNull
| JBool (b : bool)
| JInt (n : Z)
| JFloat (repr : string)
| JString (s : string)
| JList (items : list json)
| JDict (fields : list (string * json)).

(** Exceptions that can reach an [except Exception] clause.  The
    oracles raise [OSError], [JSONDecodeError] and [DuckDBError]; the
    module itself raises [ValueError]; indexing and comparisons raise
    [IndexError] and [TypeError]. *)
Inductive exc : Type :=
| ValueError (msg : string)
| TypeError (msg : string)
| IndexError (msg : string)
| OSError (msg : string)
| JSONDecodeError (msg : string)
| DuckDBError (msg : string).

(** [str(e)] *)
Definition str_exc (e : exc) : string :=
  match e with
  | ValueError m | TypeError m | IndexError m
  | OSError m | JSONDecodeError m | DuckDBError m => m
  end.

(** A computation that returns or raises. *)
Inductive result (A : Type) : Type :=
| Ok (a : A)
| Raise (e : exc).
Arguments Ok {A} a.
Arguments Raise {A} e.

Definition bind {A B : Type} (m : result A) (k : A -> result B) : result B :=
  match m with
  | Ok a => k a
  | Raise e => Raise e
  end.

Notation "x <- m ;; k" := (bind m (fun x => k))
  (at level 61, m at next level, right associativity).

(** Running [f] over a list from left to right, stopping at the first
    exception: the shape of a [for] loop that appends to a list. *)
Fixpoint for_each {A B : Type} (f : A -> result B) (l : list A) : result (list B) :=
  match l with
  | [] => Ok []
  | a :: l' =>
      b <- f a ;;
      bs <- for_each f l' ;;
      Ok (b :: bs)
  end.

(** What a route handler hands back to FastAPI: a body, or an
    [HTTPException]. *)
Inductive http_result : Type :=
| Return (body : json)
| HTTPException (status_code : Z) (detail : string).

(* ================================================================= *)
(** ** Python built-ins used by the module *)

(** [len(l)] *)
Definition len {A : Type} (l : list A) : Z := Z.of_nat (length l).

(** [sum(xs)]: left fold from 0. *)
Definition py_sum (xs : list Z) : Z := fold_left Z.add xs 0.

(** [l[start:stop]] for arbitrary integers: a negative bound counts
    from the end, and both bounds are clamped to [0, len(l)]. *)
Definition adjust_index (n i : Z) : Z :=
  if i <? 0 then Z.max 0 (i + n) else Z.min i n.

Definition py_slice {A : Type} (l : list A) (start stop : Z) : list A :=
  let lo := adjust_index (len l) start in
  let hi := adjust_index (len l) stop in
  firstn (Z.to_nat (hi - lo)) (skipn (Z.to_nat lo) l).

(** [str(n)] for an [int]. *)
Definition str_int (n : Z) : string := NilEmpty.string_of_int (Z.to_int n).

(** [dict[k] = v]: overwrite in place or append. *)
Fixpoint dict_set (k : string) (v : json) (d : list (string * json))
  : list (string * json) :=
  match d with
  | [] => [(k, v)]
  | (k', v') :: d' =>
      if String.eqb k k' then (k, v) :: d' else (k', v') :: dict_set k v d'
  end.

(** [dict(pairs)] *)
Definition py_dict (pairs : list (string * json)) : list (string * json) :=
  fold_left (fun d kv => dict_set (fst kv) (snd kv) d) pairs [].

(** [d[k]] on a response body; [None] stands for a missing key or a
    non-dict. *)
Fixpoint assoc (k : string) (d : list (string * json)) : option json :=
  match d with
  | [] => None
  | (k', v) :: d' => if String.eqb k k' then Some v else assoc k d'
  end.

Definition get_item (o : json) (k : string) : option json :=
  match o with
  | JDict d => assoc k d
  | _ => None
  end.

(* ================================================================= *)
(** ** [_count_json_items] *)

(** The inner [count_nested(o, depth)].  [depth] is threaded through
    the recursion but never read, so it is left out. *)
Fixpoint count_nested (o : json) : Z :=
  match o with
  | JDict fields => py_sum (map (fun kv => count_nested (snd kv)) fields)
  | JList items => len items + py_sum (map count_nested items)
  | _ => 1
  end.

(** [isinstance(v, (dict, list))] *)
Definition is_collection (v : json) : bool :=
  match v with
  | JDict _ | JList _ => true
  | _ => false
  end.

(** One turn of the loop over [obj.values()]. *)
Definition max_step (max_nested : Z) (kv : string * json) : Z :=
  if is_collection (snd kv)
  then Z.max max_nested (count_nested (snd kv))
  else max_nested.

Definition _count_json_items (obj : json) : Z * Z :=
  let total := count_nested obj in
  let max_nested :=
    match obj with
    | JDict fields => fold_left max_step fields 0
    | JList items => len items
    | _ => 0
    end in
  (total, max_nested).

(** The test guarding the full-document answer of [read_file]. *)
Definition small_json (json_data : json) : bool :=
  let '(total_count, max_nested) := _count_json_items json_data in
  (total_count <=? 100) && (max_nested <=? 100).

(* ================================================================= *)
(** ** [str] methods *)

Definition is_upper (c : ascii) : bool :=
  let n := nat_of_ascii c in (65 <=? n)%nat && (n <=? 90)%nat.

Definition lower_char (c : ascii) : ascii :=
  if is_upper c then ascii_of_nat (nat_of_ascii c + 32) else c.

(** [s.lower()]; names are byte strings and the letters are ASCII. *)
Fixpoint lower (s : string) : string :=
  match s with
  | EmptyString => EmptyString
  | String c s' => String (lower_char c) (lower s')
  end.

(** [s.replace(old, new)]: the occurrences of [old] are replaced from
    left to right without overlap.  [skip] counts the characters of an
    occurrence that are still to be passed over. *)
Fixpoint replace_from (old new : string) (skip : nat) (s : string) : string :=
  match s with
  | EmptyString => EmptyString
  | String c s' =>
      match skip with
      | S k => replace_from old new k s'
      | O =>
          if prefix old s
          then new ++ replace_from old new (String.length old - 1) s'
          else String c (replace_from old new 0 s')
      end
  end.

Fixpoint intersperse (new s : string) : string :=
  match s with
  | EmptyString => EmptyString
  | String c s' => String c (new ++ intersperse new s')
  end.

Definition replace (old new s : string) : string :=
  match old with
  | EmptyString => new ++ intersperse new s
  | _ => replace_from old new 0 s
  end.

(** [s.rfind(c)] for a single character, counting from [pos]. *)
Fixpoint rfind_char (c : ascii) (s : string) (pos : Z) : Z :=
  match s with
  | EmptyString => -1
  | String a s' =>
      let r := rfind_char c s' (pos + 1) in
      if r =? -1 then (if Ascii.eqb a c then pos else -1) else r
  end.

Definition tab : string := String (ascii_of_nat 9) EmptyString.

(* ================================================================= *)
(** ** [pathlib] *)

(** An absolute POSIX path, as the list of its components below the
    root. *)
Definition Path : Type := list string.

(** [p.name] *)
Definition name (p : Path) : string := last p "".

(** [PurePath.suffix] of a file name: the part from the last dot on,
    unless that dot is the first or the last character. *)
Definition name_suffix (nm : string) : string :=
  let i := rfind_char "." nm 0 in
  if (0 <? i) && (i <? Z.of_nat (String.length nm) - 1)
  then substring (Z.to_nat i) (String.length nm - Z.to_nat i) nm
  else "".

(** [p.suffix] *)
Definition suffix (p : Path) : string := name_suffix (name p).

(** [str(p)] *)
Definition str_path (p : Path) : string :=
  match p with
  | [] => "/"
  | _ => String.concat "" (map (fun c => "/" ++ c) p)
  end.

(** Components of a path string: split at the separator, empty and
    ["."] components dropped. *)
Fixpoint split_sep (s cur : string) : list string :=
  match s with
  | EmptyString => [cur]
  | String c s' =>
      if Ascii.eqb c "/"
      then cur :: split_sep s' ""
      else split_sep s' (cur ++ String c "")
  end.

Definition components (s : string) : list string :=
  filter (fun c => negb (String.eqb c "") && negb (String.eqb c "."))
         (split_sep s "").

(** [p / item]: an absolute right operand replaces [p]. *)
Definition joinpath (p : Path) (item : string) : Path :=
  if prefix "/" item then components item else (p ++ components item)%list.

(** Order of paths: component-wise, by code point. *)
Fixpoint path_compare (p q : Path) : comparison :=
  match p, q with
  | [], [] => Eq
  | [], _ :: _ => Lt
  | _ :: _, [] => Gt
  | a :: p', b :: q' =>
      match String.compare a b with
      | Eq => path_compare p' q'
      | c => c
      end
  end.

Definition path_leb (p q : Path) : bool :=
  match path_compare p q with
  | Gt => false
  | _ => true
  end.

(** [sorted(xs)]: a stable sort; an element goes in front of the first
    element that is not smaller. *)
Fixpoint insert_sorted (x : Path) (l : list Path) : list Path :=
  match l with
  | [] => [x]
  | y :: l' => if path_leb x y then x :: l else y :: insert_sorted x l'
  end.

Fixpoint sorted (l : list Path) : list Path :=
  match l with
  | [] => []
  | x :: l' => insert_sorted x (sorted l')
  end.

(* ================================================================= *)
(** ** The environment *)

(** What [conn.execute(q)] leaves behind: the rows of [fetchall()] and
    [conn.description], whose entries are (name, type); the type is
    given by its [str], the empty string standing for a missing one. *)
Record QueryResult : Type := {
  rows : list (list json);
  description : option (list (string * string))
}.

(** The file system, the JSON parser and DuckDB, as seen by the
    module: [load_json p] is [json.load] on the opened file,
    [execute q] is [conn.execute(q)] on a fresh in-memory connection.
    Listing an existing directory and opening the connection are taken
    to succeed.  [str_value] is [str()] on a value fetched from the
    engine and [repr_names] is [repr()] of a list of [str]. *)
Record Env : Type := {
  path_exists : Path -> bool;
  is_file : Path -> bool;
  is_dir : Path -> bool;
  listdir : Path -> list string;
  resolve : string -> Path;
  package_parent : Path;
  load_json : Path -> result json;
  execute : string -> result QueryResult;
  str_value : json -> string;
  repr_names : list string -> string
}.

(** [p.iterdir()] *)
Definition iterdir (env : Env) (p : Path) : list Path :=
  map (fun n => (p ++ [n])%list) (listdir env p).

(* ================================================================= *)
(** ** Catalog *)

Definition _get_data_path (env : Env) (path_data : string) : result Path :=
  let resolved_path :=
    if String.eqb path_data "duckdbfastapi_datasample"
    then joinpath (package_parent env) "datasample"
    else resolve env path_data in
  if negb (path_exists env resolved_path)
  then Raise (ValueError ("Data path does not exist: " ++ str_path resolved_path))
  else if negb (is_dir env resolved_path)
  then Raise (ValueError ("Data path must be a directory: " ++ str_path resolved_path))
  else Ok resolved_path.

(** [if specific_items:] holds for a non-empty list only; [None] and
    the empty list both lead to the scan of the directory. *)
Definition _get_items_to_process (env : Env) (data_path : Path)
           (specific_items : option (list string)) : list Path :=
  match specific_items with
  | Some ((_ :: _) as names) =>
      filter (path_exists env) (map (joinpath data_path) names)
  | _ =>
      filter (fun item => is_file env item || is_dir env item)
             (sorted (iterdir env data_path))
  end.

Definition _has_parquet_files (env : Env) (folder_path : Path) : bool :=
  if negb (is_dir env folder_path) then false
  else existsb (fun f => String.eqb (suffix f) ".parquet")
               (filter (is_file env) (iterdir env folder_path)).

(** The route name of an item:
    [item.name.lower().replace(" ", "_").replace("-", "_")]. *)
Definition resource_key (display_name : string) : string :=
  replace "-" "_" (replace " " "_" (lower display_name)).

Definition item_name_of (item : Path) : string := resource_key (name item).

(* ================================================================= *)
(** ** Request handlers *)

(** The ["pagination"] object of a response. *)
Definition pagination (page page_size total has_next : json) : json :=
  JDict [("page", page); ("page_size", page_size);
         ("total", total); ("has_next", has_next)].

(** [type(v).__name__] *)
Definition type_name (v : json) : string :=
  match v with
  | JNull => "NoneType"
  | JBool _ => "bool"
  | JInt _ => "int"
  | JFloat _ => "float"
  | JString _ => "str"
  | JList _ => "list"
  | JDict _ => "dict"
  end.

(** [n < v] for an [int] [n] and a fetched value [v].  A [COUNT( * )]
    cell is an [int]; [bool] is a subclass of [int]; any other cell is
    taken to be incomparable. *)
Definition int_lt (n : Z) (v : json) : result bool :=
  match v with
  | JInt m => Ok (n <? m)
  | JBool b => Ok (n <? (if b then 1 else 0))
  | _ => Raise (TypeError ("'<' not supported between instances of 'int' and '"
                           ++ type_name v ++ "'"))
  end.

(** [total_result[0][0] if total_result else 0] *)
Definition first_cell_or_zero (total_result : list (list json)) : result json :=
  match total_result with
  | [] => Ok (JInt 0)
  | [] :: _ => Raise (IndexError "tuple index out of range")
  | (v :: _) :: _ => Ok v
  end.

(** [[desc[0] for desc in conn.description] if conn.description else []] *)
Definition column_names (r : QueryResult) : list string :=
  match description r with
  | Some d => map fst d
  | None => []
  end.

(** The JSON branch of [read_file]. *)
Definition read_json (env : Env) (item_path : Path) (page page_size : Z)
  : result json :=
  json_data <- load_json env item_path ;;
  let '(total_count, max_nested) := _count_json_items json_data in
  if (total_count <=? 100) && (max_nested <=? 100)
  then Ok (JDict [("data", json_data);
                  ("count", JInt total_count);
                  ("pagination",
                    pagination (JInt 1) (JInt total_count)
                               (JInt total_count) (JBool false))])
  else
    let data_list :=
      match json_data with
      | JList l => l
      | JDict _ => [json_data]
      | _ => [json_data]
      end in
    let total := len data_list in
    let offset := (page - 1) * page_size in
    let paginated_data := py_slice data_list offset (offset + page_size) in
    Ok (JDict [("data", JList paginated_data);
               ("count", JInt (len paginated_data));
               ("pagination",
                 pagination (JInt page) (JInt page_size) (JInt total)
                            (JBool (offset + page_size <? total)))]).

(** The answer of [read_json] to a small document. *)
Definition whole_document (json_data : json) : json :=
  let total_count := fst (_count_json_items json_data) in
  JDict [("data", json_data);
         ("count", JInt total_count);
         ("pagination",
           pagination (JInt 1) (JInt total_count) (JInt total_count)
                      (JBool false))].

(** The two-query pattern shared by the CSV, TSV/TXT and Parquet
    branches of [read_file] and by [read_parquet_folder]; [source] is
    the text after [FROM]. *)
Definition count_query (source : string) : string :=
  "SELECT COUNT(*) as cnt FROM " ++ source.

Definition page_query (source : string) (page_size offset : Z) : string :=
  "SELECT * FROM " ++ source ++ " LIMIT " ++ str_int page_size
    ++ " OFFSET " ++ str_int offset.

Definition read_table (env : Env) (source : string) (page page_size : Z)
  : result json :=
  total_result <- execute env (count_query source) ;;
  total_count <- first_cell_or_zero (rows total_result) ;;
  let offset := (page - 1) * page_size in
  result <- execute env (page_query source page_size offset) ;;
  let columns := column_names result in
  let data_list :=
    map (fun row => JDict (py_dict (combine columns row))) (rows result) in
  has_next <- int_lt (offset + page_size) total_count ;;
  Ok (JDict [("data", JList data_list);
             ("columns", JList (map JString columns));
             ("count", JInt (len data_list));
             ("pagination",
               pagination (JInt page) (JInt page_size) total_count
                          (JBool has_next))]).

Definition csv_source (item_path : Path) : string :=
  "read_csv_auto('" ++ str_path item_path ++ "')".

Definition tsv_source (item_path : Path) : string :=
  "read_csv_auto('" ++ str_path item_path ++ "', sep='" ++ tab ++ "')".

Definition parquet_source (item_path : Path) : string :=
  "'" ++ str_path item_path ++ "'".

Definition parquet_pattern (item_path : Path) : string :=
  str_path item_path ++ "/*.parquet".

Definition folder_source (item_path : Path) : string :=
  "'" ++ parquet_pattern item_path ++ "'".

Definition json_source (item_path : Path) : string :=
  "read_json_auto('" ++ str_path item_path ++ "')".

(** [except Exception as e: raise HTTPException(500, prefix + str(e))] *)
Definition guarded (error_prefix : string) (body : result json) : http_result :=
  match body with
  | Ok response => Return response
  | Raise e => HTTPException 500 (error_prefix ++ str_exc e)
  end.

Definition read_file (env : Env) (item_path : Path) (page page_size : Z)
  : http_result :=
  guarded "Error reading file: "
    (if String.eqb (suffix item_path) ".json" then
       read_json env item_path page page_size
     else if String.eqb (suffix item_path) ".csv" then
       read_table env (csv_source item_path) page page_size
     else if existsb (String.eqb (suffix item_path)) [".tsv"; ".txt"] then
       read_table env (tsv_source item_path) page page_size
     else if String.eqb (suffix item_path) ".parquet" then
       read_table env (parquet_source item_path) page page_size
     else Ok (JDict [("error", JString "Unsupported file format")])).

Definition read_parquet_folder (env : Env) (item_path : Path)
           (page page_size : Z) : http_result :=
  guarded "Error reading parquet folder: "
    (read_table env (folder_source item_path) page page_size).

(** The one-row query of [get_column_info]. *)
Definition schema_query (item_path : Path) : result string :=
  if String.eqb (suffix item_path) ".json" then
    Ok ("SELECT * FROM " ++ json_source item_path ++ " LIMIT 1")
  else if String.eqb (suffix item_path) ".csv" then
    Ok ("SELECT * FROM " ++ csv_source item_path ++ " LIMIT 1")
  else if existsb (String.eqb (suffix item_path)) [".tsv"; ".txt"] then
    Ok ("SELECT * FROM " ++ tsv_source item_path ++ " LIMIT 1")
  else if String.eqb (suffix item_path) ".parquet" then
    Ok ("SELECT * FROM " ++ parquet_source item_path ++ " LIMIT 1")
  else Raise (ValueError ("Unsupported file type: " ++ suffix item_path)).

(** [result[0][0] if result and result[0] else None] *)
Definition first_cell_or_none (result : list (list json)) : json :=
  match result with
  | (v :: _) :: _ => v
  | _ => JNull
  end.

(** One turn of the loop over [conn.description]; [example_query]
    builds the single-column query from the column name. *)
Definition column_info (env : Env) (example_query : string -> string)
           (desc : string * string) : result json :=
  let col_name := fst desc in
  let col_type := if String.eqb (snd desc) "" then "unknown" else snd desc in
  result <- execute env (example_query col_name) ;;
  let example_value := first_cell_or_none (rows result) in
  Ok (JDict [("column_name", JString col_name);
             ("data_type", JString col_type);
             ("example_value",
               JString (match example_value with
                        | JNull => "NULL"
                        | v => str_value env v
                        end))]).

(** [enumerate(conn.description)] *)
Definition iter_description (r : QueryResult) : result (list (string * string)) :=
  match description r with
  | Some d => Ok d
  | None => Raise (TypeError "'NoneType' object is not iterable")
  end.

(** The slicing of [columns_info] and the response around it. *)
Definition columns_page (columns_info : list json) (page page_size : Z) : json :=
  let total := len columns_info in
  let offset := (page - 1) * page_size in
  let paginated_columns := py_slice columns_info offset (offset + page_size) in
  JDict [("columns", JList paginated_columns);
         ("count", JInt (len paginated_columns));
         ("pagination",
           pagination (JInt page) (JInt page_size) (JInt total)
                      (JBool (offset + page_size <? total)))].

Definition file_example_query (query col_name : string) : string :=
  "SELECT " ++ col_name ++ " FROM (" ++ replace "LIMIT 1" "" query
    ++ ") LIMIT 1".

Definition folder_example_query (item_path : Path) (col_name : string) : string :=
  "SELECT " ++ col_name ++ " FROM " ++ folder_source item_path ++ " LIMIT 1".

Definition get_column_info (env : Env) (item_path : Path) (page page_size : Z)
  : http_result :=
  guarded "Error getting column info: "
    (query <- schema_query item_path ;;
     probe <- execute env query ;;
     descs <- iter_description probe ;;
     columns_info <- for_each (column_info env (file_example_query query)) descs ;;
     Ok (columns_page columns_info page page_size)).

Definition folder_schema_query (item_path : Path) : string :=
  "SELECT * FROM " ++ folder_source item_path ++ " LIMIT 1".

Definition get_parquet_folder_column_info (env : Env) (item_path : Path)
           (page page_size : Z) : http_result :=
  guarded "Error getting parquet folder column info: "
    (probe <- execute env (folder_schema_query item_path) ;;
     descs <- iter_description probe ;;
     columns_info <-
       for_each (column_info env (folder_example_query item_path)) descs ;;
     Ok (columns_page columns_info page page_size)).

(** [str(p.relative_to(base))] *)
Fixpoint relative_to (p base : Path) : result string :=
  match base, p with
  | [], [] => Ok "."
  | [], c :: p' => Ok (String.concat "/" (c :: p'))
  | b :: base', c :: p' =>
      if String.eqb b c then relative_to p' base'
      else Raise (ValueError "path is not in the subpath of the base")
  | _ :: _, [] => Raise (ValueError "path is not in the subpath of the base")
  end.

(** [read_directory] reads [item_name] and [data_path] from the
    enclosing scope when it is called. *)
Definition read_directory (env : Env) (data_path : Path) (item_name : string)
           (item_path : Path) : http_result :=
  guarded "Error reading directory: "
    (contents <-
       for_each
         (fun file_item =>
            rel <- relative_to file_item data_path ;;
            Ok (JDict [("name", JString (name file_item));
                       ("type", JString (if is_file env file_item
                                         then "file" else "directory"));
                       ("path", JString rel)]))
         (sorted (iterdir env item_path)) ;;
     Ok (JDict [("directory", JString item_name);
                ("contents", JList contents)])).

(* ================================================================= *)
(** ** [_create_endpoints] *)

(** The closures registered on the application, each with the values
    it was created with. *)
Inductive Handler : Type :=
| ReadFile (item_path : Path)
| GetColumnInfo (item_path : Path)
| ReadParquetFolder (item_path : Path)
| GetParquetFolderColumnInfo (item_path : Path)
| ReadDirectory (data_path : Path) (item_name : string) (item_path : Path)
| HealthCheck
| Root (data_path : Path) (items : list Path).

(** A route: the URL path given to [app.get] and its handler. *)
Definition Route : Type := (string * Handler)%type.

Definition supported_suffixes : list string :=
  [".json"; ".csv"; ".tsv"; ".txt"; ".parquet"].

(** The body of the loop of [_create_endpoints] for one [item].
    [last_name] is the value [item_name] holds once the loop is over,
    which is what [read_directory] sees. *)
Definition item_routes (env : Env) (data_path : Path) (include_schema_cols : bool)
           (last_name : string) (item : Path) : list Route :=
  let item_name := item_name_of item in
  if is_file env item then
    if existsb (String.eqb (suffix item)) supported_suffixes then
      ("/data/" ++ item_name, ReadFile item)
        :: (if include_schema_cols
            then [("/data/" ++ item_name ++ "_columnnames", GetColumnInfo item)]
            else [])
    else []
  else if is_dir env item then
    let has_parquets := _has_parquet_files env item in
    if has_parquets then
      ("/data/" ++ item_name, ReadParquetFolder item)
        :: (if include_schema_cols
            then [("/data/" ++ item_name ++ "_columnnames",
                    GetParquetFolderColumnInfo item)]
            else [])
    else [("/data/" ++ item_name, ReadDirectory data_path last_name item)]
  else [].

Definition _create_endpoints (env : Env) (app : list Route) (data_path : Path)
           (items : list Path) (include_schema_cols : bool) : list Route :=
  let last_name := item_name_of (last items []) in
  (app ++ flat_map (item_routes env data_path include_schema_cols last_name)
                   items)%list.

(** Calling a registered handler with validated query parameters. *)
Definition handle (env : Env) (h : Handler) (page page_size : Z) : http_result :=
  match h with
  | ReadFile item_path => read_file env item_path page page_size
  | GetColumnInfo item_path => get_column_info env item_path page page_size
  | ReadParquetFolder item_path =>
      read_parquet_folder env item_path page page_size
  | GetParquetFolderColumnInfo item_path =>
      get_parquet_folder_column_info env item_path page page_size
  | ReadDirectory data_path item_name item_path =>
      read_directory env data_path item_name item_path
  | HealthCheck =>
      Return (JDict [("status", JString "healthy"); ("version", JString "0.1.0")])
  | Root data_path items =>
      Return (JDict [("message", JString "DuckDB FastAPI");
                     ("version", JString "0.1.0");
                     ("data_path", JString (str_path data_path));
                     ("endpoints",
                       JList (map (fun item => JString ("/data/" ++ name item))
                                  items))])
  end.

(** The kinds of catalog item, and the decision tree by which
    [_create_endpoints] and [read_file] tell them apart. *)
Inductive Kind : Type :=
| JsonFile
| CsvFile
| TsvOrTextFile
| ParquetFile
| ParquetFolder
| PlainFolder
| Unsupported.

Definition classify (env : Env) (item : Path) : Kind :=
  if is_file env item then
    if existsb (String.eqb (suffix item)) supported_suffixes then
      if String.eqb (suffix item) ".json" then JsonFile
      else if String.eqb (suffix item) ".csv" then CsvFile
      else if existsb (String.eqb (suffix item)) [".tsv"; ".txt"] then TsvOrTextFile
      else if String.eqb (suffix item) ".parquet" then ParquetFile
      else Unsupported
    else Unsupported
  else if is_dir env item then
    if _has_parquet_files env item then ParquetFolder else PlainFolder
  else Unsupported.

(** The routes an item of a given kind ends up with, and the branch
    of [read_file] that serves a file of a given kind. *)
Definition kind_routes (k : Kind) (data_path : Path) (include_schema_cols : bool)
           (last_name : string) (item : Path) : list Route :=
  let item_name := item_name_of item in
  match k with
  | JsonFile | CsvFile | TsvOrTextFile | ParquetFile =>
      ("/data/" ++ item_name, ReadFile item)
        :: (if include_schema_cols
            then [("/data/" ++ item_name ++ "_columnnames", GetColumnInfo item)]
            else [])
  | ParquetFolder =>
      ("/data/" ++ item_name, ReadParquetFolder item)
        :: (if include_schema_cols
            then [("/data/" ++ item_name ++ "_columnnames",
                    GetParquetFolderColumnInfo item)]
            else [])
  | PlainFolder => [("/data/" ++ item_name, ReadDirectory data_path last_name item)]
  | Unsupported => []
  end.

Definition kind_page (env : Env) (k : Kind) (item_path : Path)
           (page page_size : Z) : result json :=
  match k with
  | JsonFile => read_json env item_path page page_size
  | CsvFile => read_table env (csv_source item_path) page page_size
  | TsvOrTextFile => read_table env (tsv_source item_path) page page_size
  | ParquetFile => read_table env (parquet_source item_path) page page_size
  | _ => Ok (JDict [("error", JString "Unsupported file format")])
  end.

(* ================================================================= *)
(** ** [run_fastapi] *)

(** The application as it stands when [uvicorn.run] is reached, or the
    exception that ends the call before. *)
Definition run_fastapi (env : Env) (path_data : string)
           (specific_items : option (list string)) (port : Z) (host : string)
  : result (list Route) :=
  if (port <? 1) || (port >? 65535) then
    Raise (ValueError "Port must be an integer between 1 and 65535")
  else if String.eqb host "" then
    Raise (ValueError "Host must be a non-empty string")
  else
    match _get_data_path env path_data with
    | Raise e => Raise (ValueError ("Invalid path_data: " ++ str_exc e))
    | Ok data_path =>
        let items := _get_items_to_process env data_path specific_items in
        match items with
        | [] =>
            Raise (ValueError
                     ("No items found in " ++ str_path data_path
                        ++ match specific_items with
                           | Some ((_ :: _) as names) =>
                               " matching " ++ repr_names env names
                           | _ => ""
                           end))
        | _ :: _ =>
            let app := _create_endpoints env [] data_path items true in
            Ok (app ++ [("/health", HealthCheck);
                        ("/", Root data_path items)])%list
        end
    end.

(* ================================================================= *)
(** ** The specification's wording, for comparison with the code *)

(** The recursive structural count as the specification words it: a
    scalar counts 1, a sequence its length plus the counts of its
    elements, a mapping the sum of the counts of its values. *)
Inductive structural_count : json -> Z -> Prop :=
| count_scalar v :
    is_collection v = false -> structural_count v 1
| count_sequence items ns :
    Forall2 structural_count items ns ->
    structural_count (JList items) (len items + fold_right Z.add 0 ns)
| count_mapping fields ns :
    Forall2 (fun kv n => structural_count (snd kv) n) fields ns ->
    structural_count (JDict fields) (fold_right Z.add 0 ns).

(** [maxNested] as the specification words it: for a mapping, the
    maximum recursive count among its values, whatever they are. *)
Definition max_nested_as_specified (obj : json) : Z :=
  match obj with
  | JList items => len items
  | JDict fields =>
      fold_right Z.max 0 (map (fun kv => count_nested (snd kv)) fields)
  | _ => 0
  end.

(** A table behind the engine: its columns (name, type) and its rows
    in read order; [JNull] is SQL's NULL. *)
Record Table : Type := {
  table_columns : list (string * string);
  table_rows : list (list json)
}.

(** Position of a column, by name. *)
Fixpoint column_index (c : string) (cols : list (string * string)) : option nat :=
  match cols with
  | [] => None
  | (c', _) :: cols' =>
      if String.eqb c c' then Some O
      else option_map S (column_index c cols')
  end.

(** The cell of column [c] in the first row, [JNull] without rows. *)
Definition first_row_cell (t : Table) (c : string) : json :=
  match column_index c (table_columns t), table_rows t with
  | Some i, r :: _ => nth i r JNull
  | _, _ => JNull
  end.

(** The first non-null cell of column [c], over all rows. *)
Definition first_non_null (t : Table) (c : string) : option json :=
  match column_index c (table_columns t) with
  | Some i =>
      find (fun v => match v with JNull => false | _ => true end)
           (map (fun r => nth i r JNull) (table_rows t))
  | None => None
  end.

(** The engine's answers over a table: [SELECT * ... LIMIT 1] and
    [SELECT c ... LIMIT 1]. *)
Definition select_all_limit_1 (t : Table) : QueryResult :=
  {| rows := firstn 1 (table_rows t);
     description := Some (table_columns t) |}.

Definition select_column_limit_1 (t : Table) (c : string) : result QueryResult :=
  match column_index c (table_columns t) with
  | Some i =>
      Ok {| rows := map (fun r => [nth i r JNull]) (firstn 1 (table_rows t));
            description := Some [nth i (table_columns t) (c, "")] |}
  | None =>
      Raise (DuckDBError ("Binder Error: Referenced column " ++ c ++ " not found"))
  end.

(** [env] answers the schema queries [probe] and [example c] as an
    engine reading table [t] would. *)
Definition answers_schema_queries (env : Env) (probe : string)
           (example : string -> string) (t : Table) : Prop :=
  execute env probe = Ok (select_all_limit_1 t) /\
  forall c ty, In (c, ty) (table_columns t) ->
               execute env (example c) = select_column_limit_1 t c.

(** The column descriptor the schema handlers build from a table. *)
Definition descriptor (env : Env) (example_value : string -> json)
           (desc : string * string) : json :=
  JDict [("column_name", JString (fst desc));
         ("data_type",
           JString (if String.eqb (snd desc) "" then "unknown" else snd desc));
         ("example_value",
           JString (match example_value (fst desc) with
                    | JNull => "NULL"
                    | v => str_value env v
                    end))].

(** The column descriptor the schema handlers build from the answer
    [result] of the engine to the single-column query of [desc]. *)
Definition column_descriptor (env : Env) (desc : string * string)
           (result : QueryResult) : json :=
  JDict [("column_name", JString (fst desc));
         ("data_type",
           JString (if String.eqb (snd desc) "" then "unknown" else snd desc));
         ("example_value",
           JString (match first_cell_or_none (rows result) with
                    | JNull => "NULL"
                    | v => str_value env v
                    end))].

(** The invariant of a page envelope: [rows_key] names the list of
    returned rows. *)
Definition envelope_ok (rows_key : string) (page page_size : Z) (body : json)
  : bool :=
  let offset := (page - 1) * page_size in
  match get_item body rows_key, get_item body "count",
        get_item body "pagination" with
  | Some (JList returned), Some (JInt count), Some pag =>
      match get_item pag "total", get_item pag "has_next" with
      | Some (JInt total), Some (JBool has_next) =>
          Bool.eqb has_next (offset + page_size <? total)
          && (count =? Z.min page_size (Z.max 0 (total - offset)))
          && (count =? len returned)
      | _, _ => false
      end
  | _, _, _ => false
  end.

(** The example value as the specification words it: the first
    non-null value of the column, or ["NULL"]. *)
Definition example_as_specified (env : Env) (t : Table) (c : string) : string :=
  match first_non_null t c with
  | Some v => str_value env v
  | None => "NULL"
  end.

(** The text after [FROM] for the tabular files served by [read_file]. *)
Definition table_source (item_path : Path) : option string :=
  if String.eqb (suffix item_path) ".json" then None
  else if String.eqb (suffix item_path) ".csv" then Some (csv_source item_path)
  else if existsb (String.eqb (suffix item_path)) [".tsv"; ".txt"]
  then Some (tsv_source item_path)
  else if String.eqb (suffix item_path) ".parquet"
  then Some (parquet_source item_path)
  else None.

(** The text each handler puts in front of the message of the
    exception it caught. *)
Definition error_prefix (h : Handler) : string :=
  match h with
  | ReadFile _ => "Error reading file: "
  | GetColumnInfo _ => "Error getting column info: "
  | ReadParquetFolder _ => "Error reading parquet folder: "
  | GetParquetFolderColumnInfo _ => "Error getting parquet folder column info: "
  | ReadDirectory _ _ _ => "Error reading directory: "
  | HealthCheck | Root _ _ => ""
  end.

(** [first_failure env h page page_size e]: while [h] serves the
    request, the calls to the parser and to the engine succeed up to
    one that raises [e]. *)
Inductive first_failure (env : Env) : Handler -> Z -> Z -> exc -> Prop :=
| fail_parse item_path page page_size e :
    suffix item_path = ".json" ->
    load_json env item_path = Raise e ->
    first_failure env (ReadFile item_path) page page_size e
| fail_file_count item_path source page page_size e :
    table_source item_path = Some source ->
    execute env (count_query source) = Raise e ->
    first_failure env (ReadFile item_path) page page_size e
| fail_file_page item_path source page page_size total_result total_count e :
    table_source item_path = Some source ->
    execute env (count_query source) = Ok total_result ->
    first_cell_or_zero (rows total_result) = Ok total_count ->
    execute env (page_query source page_size ((page - 1) * page_size)) = Raise e ->
    first_failure env (ReadFile item_path) page page_size e
| fail_folder_count item_path page page_size e :
    execute env (count_query (folder_source item_path)) = Raise e ->
    first_failure env (ReadParquetFolder item_path) page page_size e
| fail_folder_page item_path page page_size total_result total_count e :
    execute env (count_query (folder_source item_path)) = Ok total_result ->
    first_cell_or_zero (rows total_result) = Ok total_count ->
    execute env (page_query (folder_source item_path) page_size
                            ((page - 1) * page_size)) = Raise e ->
    first_failure env (ReadParquetFolder item_path) page page_size e
| fail_schema_probe item_path query page page_size e :
    schema_query item_path = Ok query ->
    execute env query = Raise e ->
    first_failure env (GetColumnInfo item_path) page page_size e
| fail_schema_example item_path query probe before desc after page page_size e :
    schema_query item_path = Ok query ->
    execute env query = Ok probe ->
    description probe = Some (before ++ desc :: after)%list ->
    (forall d, In d before ->
               exists r, execute env (file_example_query query (fst d)) = Ok r) ->
    execute env (file_example_query query (fst desc)) = Raise e ->
    first_failure env (GetColumnInfo item_path) page page_size e
| fail_folder_probe item_path page page_size e :
    execute env (folder_schema_query item_path) = Raise e ->
    first_failure env (GetParquetFolderColumnInfo item_path) page page_size e
| fail_folder_example item_path probe before desc after page page_size e :
    execute env (folder_schema_query item_path) = Ok probe ->
    description probe = Some (before ++ desc :: after)%list ->
    (forall d, In d before ->
               exists r, execute env (folder_example_query item_path (fst d)) = Ok r) ->
    execute env (folder_example_query item_path (fst desc)) = Raise e ->
    first_failure env (GetParquetFolderColumnInfo item_path) page page_size e.

(* ================================================================= *)
(** ** A sample data directory *)

Module Sample.

Definition data_path : Path := ["srv"; "data"].

Definition files : list Path :=
  [ ["srv"; "data"; "users.json"];
    ["srv"; "data"; "events.json"];
    ["srv"; "data"; "empty.json"];
    ["srv"; "data"; "broken.json"];
    ["srv"; "data"; "people.parquet"];
    ["srv"; "data"; "Sales-2024 Q1.csv"];
    ["srv"; "data"; "NOTES.TXT"];
    ["srv"; "data"; "shards"; "part-0.parquet"];
    ["srv"; "data"; "shards"; "part-1.parquet"];
    ["srv"; "data"; "shards"; "README.md"];
    ["srv"; "data"; "docs"; "guide.txt"] ].

Definition dirs : list Path :=
  [ ["srv"]; ["srv"; "data"];
    ["srv"; "data"; "shards"]; ["srv"; "data"; "docs"] ].

(** A socket: it exists, and is neither a file nor a directory. *)
Definition others : list Path := [ ["srv"; "data"; "run.sock"] ].

Definition path_eqb (p q : Path) : bool :=
  if list_eq_dec string_dec p q then true else false.

Definition mem (p : Path) (l : list Path) : bool := existsb (path_eqb p) l.

Definition children (p : Path) : list string :=
  if path_eqb p ["srv"; "data"] then
    ["users.json"; "shards"; "run.sock"; "events.json"; "docs";
     "Sales-2024 Q1.csv"; "NOTES.TXT"; "people.parquet"; "empty.json";
     "broken.json"]
  else if path_eqb p ["srv"; "data"; "shards"] then
    ["part-1.parquet"; "README.md"; "part-0.parquet"]
  else if path_eqb p ["srv"; "data"; "docs"] then ["guide.txt"]
  else if path_eqb p ["srv"] then ["data"]
  else [].

Definition users : json :=
  JList [JDict [("id", JInt 1); ("name", JString "ann")];
         JDict [("id", JInt 2); ("name", JString "bob")]].

Definition events : json := JList (repeat (JDict [("id", JInt 0)]) 250).

Definition parse (p : Path) : result json :=
  if path_eqb p ["srv"; "data"; "users.json"] then Ok users
  else if path_eqb p ["srv"; "data"; "events.json"] then Ok events
  else if path_eqb p ["srv"; "data"; "empty.json"] then Ok (JList [])
  else if path_eqb p ["srv"; "data"; "broken.json"] then
    Raise (JSONDecodeError "Expecting value: line 1 column 1 (char 0)")
  else Raise (OSError "[Errno 2] No such file or directory").

(** [people.parquet]: the first row has no nickname. *)
Definition people : Table :=
  {| table_columns := [("id", "BIGINT"); ("nick", "VARCHAR")];
     table_rows := [[JInt 1; JNull]; [JInt 2; JString "bo"]] |}.

Definition people_probe : string :=
  "SELECT * FROM " ++ parquet_source ["srv"; "data"; "people.parquet"]
    ++ " LIMIT 1".

(** An engine that knows the schema queries on [people.parquet] and
    fails on everything else. *)
Definition run_query (q : string) : result QueryResult :=
  if String.eqb q people_probe then Ok (select_all_limit_1 people)
  else
    match find (fun cd => String.eqb q (file_example_query people_probe (fst cd)))
               (table_columns people) with
    | Some cd => select_column_limit_1 people (fst cd)
    | None => Raise (DuckDBError "IO Error: No files found that match the pattern")
    end.

Definition show (v : json) : string :=
  match v with
  | JNull => "None"
  | JBool true => "True"
  | JBool false => "False"
  | JInt n => str_int n
  | JFloat r => r
  | JString s => s
  | JList _ => "[...]"
  | JDict _ => "{...}"
  end.

Definition show_names (names : list string) : string :=
  "[" ++ String.concat ", " (map (fun s => "'" ++ s ++ "'") names) ++ "]".

Definition env : Env :=
  {| path_exists := fun p => mem p files || mem p dirs || mem p others;
     is_file := fun p => mem p files;
     is_dir := fun p => mem p dirs;
     listdir := children;
     resolve := components;
     package_parent := ["srv"; "pkg"];
     load_json := parse;
     execute := run_query;
     str_value := show;
     repr_names := show_names |}.

End Sample.

(* ================================================================= *)
(** * Properties *)

(* ================================================================= *)
(** ** Sums, slices and induction on JSON values *)

Lemma fold_left_add_shift (xs : list Z) (a : Z) :
  fold_left Z.add xs a = a + fold_right Z.add 0 xs.
Proof.
  revert a; induction xs as [|x xs IH]; intros a; simpl.
  - lia.
  - rewrite IH. lia.
Qed.

Lemma py_sum_fold_right (xs : list Z) : py_sum xs = fold_right Z.add 0 xs.
Proof. unfold py_sum. rewrite fold_left_add_shift. lia. Qed.

Lemma len_nonneg {A : Type} (l : list A) : 0 <= len l.
Proof. unfold len. lia. Qed.

Section JsonInduction.
Variable P : json -> Prop.
Hypothesis P_null : P JNull.
Hypothesis P_bool : forall b, P (JBool b).
Hypothesis P_int : forall n, P (JInt n).
Hypothesis P_float : forall r, P (JFloat r).
Hypothesis P_string : forall s, P (JString s).
Hypothesis P_list : forall items, Forall P items -> P (JList items).
Hypothesis P_dict :
  forall fields, Forall (fun kv => P (snd kv)) fields -> P (JDict fields).

Fixpoint json_induction (j : json) : P j :=
  match j with
  | JNull => P_null
  | JBool b => P_bool b
  | JInt n => P_int n
  | JFloat r => P_float r
  | JString s => P_string s
  | JList items =>
      P_list items
        ((fix all (l : list json) : Forall P l :=
            match l with
            | [] => Forall_nil P
            | x :: l' => Forall_cons x (json_induction x) (all l')
            end) items)
  | JDict fields =>
      P_dict fields
        ((fix all (l : list (string * json))
            : Forall (fun kv => P (snd kv)) l :=
            match l with
            | [] => Forall_nil _
            | kv :: l' =>
                Forall_cons (P := fun kv => P (snd kv)) kv
                            (json_induction (snd kv)) (all l')
            end) fields)
  end.
End JsonInduction.

(* ================================================================= *)
(** ** The structural count *)

Lemma count_nested_structural (j : json) : structural_count j (count_nested j).
Proof.
  induction j using json_induction;
    try (apply count_scalar; reflexivity).
  - simpl. rewrite py_sum_fold_right. apply count_sequence.
    induction H as [|x l Hx Hl IH]; simpl; constructor; assumption.
  - simpl. rewrite py_sum_fold_right. apply count_mapping.
    induction H as [|kv l Hkv Hl IH]; simpl; constructor; assumption.
Qed.

Lemma structural_count_unique (j : json) :
  forall n, structural_count j n -> n = count_nested j.
Proof.
  induction j using json_induction; intros m Hm;
    try (inversion Hm; subst; [reflexivity | discriminate]);
    try (inversion Hm; subst; reflexivity).
  - inversion Hm as [v Hv | items' ns Hns | ]; subst; [discriminate|].
    simpl. rewrite py_sum_fold_right. f_equal. f_equal.
    clear Hm. revert ns Hns.
    induction H as [|x l Hx Hl IH]; intros ns Hns; inversion Hns; subst; simpl.
    + reflexivity.
    + f_equal; [apply Hx; assumption | apply IH; assumption].
  - inversion Hm as [v Hv | | fields' ns Hns]; subst; [discriminate|].
    simpl. rewrite py_sum_fold_right. f_equal.
    clear Hm. revert ns Hns.
    induction H as [|kv l Hkv Hl IH]; intros ns Hns; inversion Hns; subst; simpl.
    + reflexivity.
    + f_equal; [apply Hkv; assumption | apply IH; assumption].
Qed.

Lemma count_nested_nonneg (j : json) : 0 <= count_nested j.
Proof.
  induction j using json_induction; simpl; try lia.
  - rewrite py_sum_fold_right. pose proof (len_nonneg items).
    assert (0 <= fold_right Z.add 0 (map count_nested items)).
    { induction H as [|x l Hx Hl IH]; simpl; [lia|].
      assert (0 <= len l) by apply len_nonneg. specialize (IH H). lia. }
    lia.
  - rewrite py_sum_fold_right.
    induction H as [|x l Hx Hl IH]; simpl; lia.
Qed.

Lemma count_nested_list_ge_len (items : list json) :
  len items <= count_nested (JList items).
Proof.
  simpl. rewrite py_sum_fold_right.
  assert (0 <= fold_right Z.add 0 (map count_nested items)).
  { induction items as [|x l IH]; simpl; [lia|].
    pose proof (count_nested_nonneg x). lia. }
  lia.
Qed.

Lemma max_scan_bounds (fields : list (string * json)) (m0 : Z) :
  let m := fold_left max_step fields m0 in
  m0 <= m /\
  (forall kv, In kv fields -> is_collection (snd kv) = true ->
              count_nested (snd kv) <= m) /\
  (m = m0 \/
   exists kv, In kv fields /\ is_collection (snd kv) = true /\
              count_nested (snd kv) = m).
Proof.
  revert m0; induction fields as [|kv fields IH]; intros m0; simpl.
  - split; [lia|]. split; [intros kv []|]. left; reflexivity.
  - destruct (IH (max_step m0 kv)) as (Hle & Hub & Hatt).
    assert (Hstep : m0 <= max_step m0 kv).
    { unfold max_step. destruct (is_collection (snd kv)); lia. }
    split; [lia|]. split.
    + intros kv' [<- | Hin] Hc.
      * assert (count_nested (snd kv) <= max_step m0 kv).
        { unfold max_step. rewrite Hc. lia. }
        lia.
      * apply Hub; assumption.
    + destruct Hatt as [Heq | (kv' & Hin & Hc & Hm)].
      * assert (Hcases : max_step m0 kv = m0 \/
                           (is_collection (snd kv) = true /\
                            max_step m0 kv = count_nested (snd kv))).
        { unfold max_step. destruct (is_collection (snd kv)); [|left; reflexivity].
          destruct (Z.max_spec m0 (count_nested (snd kv))) as [[_ Hmax]|[_ Hmax]];
            rewrite Hmax; [right; split; reflexivity | left; reflexivity]. }
        destruct Hcases as [Hsame | [Hc Hnew]].
        -- left. rewrite Heq. exact Hsame.
        -- right. exists kv. split; [left; reflexivity|]. split; [exact Hc|].
           rewrite Heq. symmetry. exact Hnew.
      * right. exists kv'. auto.
Qed.

(** C2 (amended): [_count_json_items] returns the structural count of
    the specification as its total.  Its second component is the length
    of a top-level sequence; for a top-level mapping it is the maximum
    of the structural counts of those values that are themselves
    mappings or sequences, and 0 when there is none; for a top-level
    scalar it is 0. *)
Theorem count_json_items_structural (obj : json) :
  (forall n, structural_count obj n <-> n = fst (_count_json_items obj)) /\
  (forall items, obj = JList items ->
                 snd (_count_json_items obj) = len items) /\
  (forall fields, obj = JDict fields ->
     let m := snd (_count_json_items obj) in
     (forall k v n, In (k, v) fields -> is_collection v = true ->
                    structural_count v n -> n <= m) /\
     (m = 0 \/
      exists k v, In (k, v) fields /\ is_collection v = true /\
                  structural_count v m)) /\
  (is_collection obj = false -> snd (_count_json_items obj) = 0).
Proof.
  split; [|split; [|split]].
  - intros n. simpl. split.
    + apply structural_count_unique.
    + intros ->. apply count_nested_structural.
  - intros items ->. reflexivity.
  - intros fields ->. simpl.
    destruct (max_scan_bounds fields 0) as (_ & Hub & Hatt).
    split.
    + intros k v n Hin Hc Hn.
      apply structural_count_unique in Hn. subst n.
      apply (Hub (k, v)); assumption.
    + destruct Hatt as [Heq | ([k v] & Hin & Hc & Hm)].
      * left. exact Heq.
      * right. exists k, v. split; [assumption|]. split; [assumption|].
        simpl in Hm. rewrite <- Hm.
        apply count_nested_structural.
  - destruct obj; simpl; intros H; try reflexivity; discriminate.
Qed.

(** C2, as worded: on the mapping [{"a": 1}] the maximum recursive
    count among the values is 1, and the code returns 0. *)
Lemma max_nested_skips_scalar_values :
  snd (_count_json_items (JDict [("a", JInt 1)])) = 0 /\
  max_nested_as_specified (JDict [("a", JInt 1)]) = 1 /\
  snd (_count_json_items (JDict [("a", JInt 1)]))
    <> max_nested_as_specified (JDict [("a", JInt 1)]).
Proof. repeat split. discriminate. Qed.

(* ================================================================= *)
(** ** Slices *)

Lemma len_py_slice {A : Type} (l : list A) (offset n : Z) :
  0 <= offset -> 0 <= n ->
  len (py_slice l offset (offset + n)) = Z.min n (Z.max 0 (len l - offset)).
Proof.
  intros Ho Hn. unfold py_slice, adjust_index.
  destruct (offset <? 0) eqn:E1; [apply Z.ltb_lt in E1; lia|].
  destruct (offset + n <? 0) eqn:E2; [apply Z.ltb_lt in E2; lia|].
  unfold len. rewrite length_firstn, length_skipn. lia.
Qed.

Lemma py_slice_to_end {A : Type} (l : list A) (offset n : Z) :
  0 <= offset -> len l <= offset + n ->
  py_slice l offset (offset + n) = skipn (Z.to_nat offset) l.
Proof.
  intros Ho Hn. unfold py_slice, adjust_index.
  destruct (offset <? 0) eqn:E1; [apply Z.ltb_lt in E1; lia|].
  destruct (offset + n <? 0) eqn:E2; [apply Z.ltb_lt in E2; unfold len in Hn; lia|].
  unfold len in *.
  destruct (Z.le_gt_cases offset (Z.of_nat (length l))) as [Hin | Hout].
  - replace (Z.min offset (Z.of_nat (length l))) with offset by lia.
    apply firstn_all2. rewrite length_skipn. lia.
  - replace (Z.min offset (Z.of_nat (length l))) with (Z.of_nat (length l)) by lia.
    rewrite !skipn_all2 by lia. apply firstn_nil.
Qed.

(* ================================================================= *)
(** ** JSON pages *)

Lemma read_file_json_small env item_path page page_size doc :
  suffix item_path = ".json" ->
  load_json env item_path = Ok doc ->
  small_json doc = true ->
  read_file env item_path page page_size = Return (whole_document doc).
Proof.
  intros Hsuf Hload Hsmall. unfold read_file. rewrite Hsuf.
  change (String.eqb ".json" ".json") with true. cbv iota.
  unfold read_json. rewrite Hload. unfold bind.
  unfold small_json in Hsmall.
  destruct (_count_json_items doc) as [total_count max_nested] eqn:Hcount.
  rewrite Hsmall. unfold whole_document. rewrite Hcount. reflexivity.
Qed.

Lemma read_file_json_list_large env item_path page page_size items :
  suffix item_path = ".json" ->
  load_json env item_path = Ok (JList items) ->
  small_json (JList items) = false ->
  read_file env item_path page page_size =
    let offset := (page - 1) * page_size in
    let paginated := py_slice items offset (offset + page_size) in
    Return (JDict [("data", JList paginated);
                   ("count", JInt (len paginated));
                   ("pagination",
                     pagination (JInt page) (JInt page_size) (JInt (len items))
                                (JBool (offset + page_size <? len items)))]).
Proof.
  intros Hsuf Hload Hlarge. unfold read_file. rewrite Hsuf.
  change (String.eqb ".json" ".json") with true. cbv iota.
  unfold read_json. rewrite Hload. unfold bind.
  unfold small_json in Hlarge.
  destruct (_count_json_items (JList items)) as [total_count max_nested].
  rewrite Hlarge. reflexivity.
Qed.

Lemma read_file_json_other_large env item_path page page_size doc :
  suffix item_path = ".json" ->
  load_json env item_path = Ok doc ->
  small_json doc = false ->
  (forall items, doc <> JList items) ->
  read_file env item_path page page_size =
    let offset := (page - 1) * page_size in
    let paginated := py_slice [doc] offset (offset + page_size) in
    Return (JDict [("data", JList paginated);
                   ("count", JInt (len paginated));
                   ("pagination",
                     pagination (JInt page) (JInt page_size) (JInt 1)
                                (JBool (offset + page_size <? 1)))]).
Proof.
  intros Hsuf Hload Hlarge Hnot. unfold read_file. rewrite Hsuf.
  change (String.eqb ".json" ".json") with true. cbv iota.
  unfold read_json. rewrite Hload. unfold bind.
  unfold small_json in Hlarge.
  destruct (_count_json_items doc) as [total_count max_nested].
  rewrite Hlarge.
  destruct doc; try reflexivity. exfalso. apply (Hnot items). reflexivity.
Qed.

(** C1: a JSON document whose structural total and maxNested are both
    at most 100 is returned whole by the data page, whatever page and
    page size are requested (page 2 included), under an envelope with
    page 1, page size and total equal to the structural total, and no
    next page. *)
Theorem json_bypass_returns_whole_document
        env item_path (page page_size : Z) doc :
  suffix item_path = ".json" ->
  load_json env item_path = Ok doc ->
  fst (_count_json_items doc) <= 100 ->
  snd (_count_json_items doc) <= 100 ->
  read_file env item_path page page_size =
    Return (JDict [("data", doc);
                   ("count", JInt (fst (_count_json_items doc)));
                   ("pagination",
                     JDict [("page", JInt 1);
                            ("page_size", JInt (fst (_count_json_items doc)));
                            ("total", JInt (fst (_count_json_items doc)));
                            ("has_next", JBool false)])]).
Proof.
  intros Hsuf Hload Htotal Hmax.
  apply read_file_json_small; try assumption.
  unfold small_json.
  destruct (_count_json_items doc) as [total_count max_nested].
  simpl in Htotal, Hmax.
  apply andb_true_intro; split; apply Z.leb_le; assumption.
Qed.

Lemma json_bypass_page_two :
  read_file Sample.env ["srv"; "data"; "users.json"] 2 5 =
    Return (JDict [("data", Sample.users);
                   ("count", JInt 6);
                   ("pagination",
                     JDict [("page", JInt 1); ("page_size", JInt 6);
                            ("total", JInt 6); ("has_next", JBool false)])]).
Proof.
  apply (json_bypass_returns_whole_document
           Sample.env ["srv"; "data"; "users.json"] 2 5 Sample.users).
  - reflexivity.
  - reflexivity.
  - vm_compute. discriminate.
  - vm_compute. discriminate.
Defined.

(** C10: for an empty JSON document (an empty list or an empty
    mapping) the structural count is (0, 0), the full-document answer
    is taken, and its envelope reports page size 0, total 0 and no next
    page; 0 lies outside the range 1..1000 of page sizes. *)
Theorem empty_json_reports_page_size_zero
        env item_path (page page_size : Z) doc :
  suffix item_path = ".json" ->
  load_json env item_path = Ok doc ->
  doc = JList [] \/ doc = JDict [] ->
  _count_json_items doc = (0, 0) /\
  small_json doc = true /\
  read_file env item_path page page_size =
    Return (JDict [("data", doc);
                   ("count", JInt 0);
                   ("pagination",
                     JDict [("page", JInt 1); ("page_size", JInt 0);
                            ("total", JInt 0); ("has_next", JBool false)])]) /\
  ~ (1 <= 0 <= 1000).
Proof.
  intros Hsuf Hload Hdoc.
  assert (Hcount : _count_json_items doc = (0, 0))
    by (destruct Hdoc; subst doc; reflexivity).
  assert (Hsmall : small_json doc = true)
    by (destruct Hdoc; subst doc; reflexivity).
  repeat split; try assumption.
  - rewrite (read_file_json_small env item_path page page_size doc Hsuf Hload Hsmall).
    unfold whole_document. rewrite Hcount. reflexivity.
  - lia.
Qed.

Lemma empty_json_sample :
  read_file Sample.env ["srv"; "data"; "empty.json"] 1 5 =
    Return (JDict [("data", JList []);
                   ("count", JInt 0);
                   ("pagination",
                     JDict [("page", JInt 1); ("page_size", JInt 0);
                            ("total", JInt 0); ("has_next", JBool false)])]).
Proof.
  apply (empty_json_reports_page_size_zero
           Sample.env ["srv"; "data"; "empty.json"] 1 5 (JList [])).
  - reflexivity.
  - reflexivity.
  - left. reflexivity.
Defined.

(* ================================================================= *)
(** ** The envelope invariant *)

Lemma bind_ok {A B : Type} (m : result A) (k : A -> result B) (b : B) :
  bind m k = Ok b -> exists a, m = Ok a /\ k a = Ok b.
Proof. destruct m as [a|e]; simpl; intros H; [eauto | discriminate]. Qed.

Lemma guarded_return (error_prefix : string) (m : result json) (body : json) :
  guarded error_prefix m = Return body -> m = Ok body.
Proof. destruct m; simpl; intros H; [congruence | discriminate]. Qed.

Lemma guarded_raise (error_prefix : string) (m : result json) (e : exc) :
  m = Raise e ->
  guarded error_prefix m = HTTPException 500 (error_prefix ++ str_exc e).
Proof. intros ->. reflexivity. Qed.

Ltac envelope_of_slice Hlen :=
  unfold envelope_ok; cbn [get_item assoc pagination String.eqb Ascii.eqb Bool.eqb];
  rewrite Bool.eqb_reflx, Z.eqb_refl, andb_true_r; cbn [andb];
  apply Z.eqb_eq; exact Hlen.

Lemma data_page_envelope (data_list : list json) (page page_size : Z) :
  1 <= page -> 1 <= page_size ->
  let offset := (page - 1) * page_size in
  let paginated := py_slice data_list offset (offset + page_size) in
  envelope_ok "data" page page_size
    (JDict [("data", JList paginated);
            ("count", JInt (len paginated));
            ("pagination",
              pagination (JInt page) (JInt page_size) (JInt (len data_list))
                         (JBool (offset + page_size <? len data_list)))]) = true.
Proof.
  intros Hpage Hsize offset paginated.
  assert (Hlen : len paginated
                 = Z.min page_size (Z.max 0 (len data_list - offset)))
    by (apply len_py_slice; unfold offset; nia).
  envelope_of_slice Hlen.
Qed.

Lemma columns_page_envelope (columns_info : list json) (page page_size : Z) :
  1 <= page -> 1 <= page_size ->
  envelope_ok "columns" page page_size
              (columns_page columns_info page page_size) = true.
Proof.
  intros Hpage Hsize. unfold columns_page.
  set (offset := (page - 1) * page_size).
  set (paginated := py_slice columns_info offset (offset + page_size)).
  assert (Hlen : len paginated
                 = Z.min page_size (Z.max 0 (len columns_info - offset)))
    by (apply len_py_slice; unfold offset; nia).
  envelope_of_slice Hlen.
Qed.

(** C3: outside the small-document answer, a JSON data page and a
    schema page (of a file or of a Parquet folder) carry an envelope
    with [has_next = (offset + pageSize < total)] and
    [count = min(pageSize, max(0, total - offset))], where
    [offset = (page - 1) * pageSize]; [count] is the number of rows
    returned. *)
Theorem page_envelope_invariant env item_path (page page_size : Z) :
  1 <= page -> 1 <= page_size ->
  (forall doc,
      suffix item_path = ".json" ->
      load_json env item_path = Ok doc ->
      small_json doc = false ->
      exists body,
        read_file env item_path page page_size = Return body /\
        envelope_ok "data" page page_size body = true) /\
  (forall body,
      get_column_info env item_path page page_size = Return body ->
      envelope_ok "columns" page page_size body = true) /\
  (forall body,
      get_parquet_folder_column_info env item_path page page_size = Return body ->
      envelope_ok "columns" page page_size body = true).
Proof.
  intros Hpage Hsize. split; [|split].
  - intros doc Hsuf Hload Hlarge.
    assert (Hcases : (exists items, doc = JList items)
                     \/ (forall items, doc <> JList items)).
    { destruct doc; try (right; intros items' Heq; discriminate).
      left. eexists. reflexivity. }
    destruct Hcases as [[items ->] | Hnot].
    + rewrite (read_file_json_list_large env item_path page page_size items
                 Hsuf Hload Hlarge).
      eexists. split; [reflexivity|].
      apply (data_page_envelope items page page_size Hpage Hsize).
    + rewrite (read_file_json_other_large env item_path page page_size doc
                 Hsuf Hload Hlarge Hnot).
      eexists. split; [reflexivity|].
      apply (data_page_envelope [doc] page page_size Hpage Hsize).
  - intros body Hret. unfold get_column_info in Hret.
    apply guarded_return in Hret.
    apply bind_ok in Hret. destruct Hret as (query & _ & Hret).
    apply bind_ok in Hret. destruct Hret as (probe & _ & Hret).
    apply bind_ok in Hret. destruct Hret as (descs & _ & Hret).
    apply bind_ok in Hret. destruct Hret as (columns_info & _ & Hret).
    injection Hret as <-. apply columns_page_envelope; assumption.
  - intros body Hret. unfold get_parquet_folder_column_info in Hret.
    apply guarded_return in Hret.
    apply bind_ok in Hret. destruct Hret as (probe & _ & Hret).
    apply bind_ok in Hret. destruct Hret as (descs & _ & Hret).
    apply bind_ok in Hret. destruct Hret as (columns_info & _ & Hret).
    injection Hret as <-. apply columns_page_envelope; assumption.
Qed.

Lemma page_envelope_sample :
  (exists body,
      read_file Sample.env ["srv"; "data"; "events.json"] 3 100 = Return body /\
      envelope_ok "data" 3 100 body = true) /\
  envelope_ok "columns" 3 100
    (JDict [("columns", JList []);
            ("count", JInt 0);
            ("pagination",
              pagination (JInt 3) (JInt 100) (JInt 2) (JBool false))]) = true.
Proof.
  assert (Hpage : 1 <= 3) by lia.
  assert (Hsize : 1 <= 100) by lia.
  destruct (page_envelope_invariant
              Sample.env ["srv"; "data"; "events.json"] 3 100 Hpage Hsize)
    as [Hjson _].
  destruct (page_envelope_invariant
              Sample.env ["srv"; "data"; "people.parquet"] 3 100 Hpage Hsize)
    as [_ [Hschema _]].
  split.
  - apply (Hjson Sample.events); reflexivity.
  - apply Hschema. reflexivity.
Defined.

(* ================================================================= *)
(** ** The last page of a long JSON list *)

Lemma last_page_bounds (N p : Z) :
  0 < N -> 1 <= p ->
  let last_page := (N + p - 1) / p in
  let offset := (last_page - 1) * p in
  0 <= offset /\ offset < N /\ N <= offset + p /\ 1 <= last_page.
Proof.
  intros HN Hp last_page offset.
  pose proof (Z.div_mod (N + p - 1) p ltac:(lia)) as Hdm.
  pose proof (Z.mod_pos_bound (N + p - 1) p ltac:(lia)) as Hmod.
  fold last_page in Hdm.
  assert (1 <= last_page) by (unfold last_page; apply Z.div_le_lower_bound; lia).
  unfold offset. repeat split; nia.
Qed.

Lemma last_page_count (N p : Z) :
  0 < N -> 1 <= p ->
  let offset := ((N + p - 1) / p - 1) * p in
  N - offset = if N mod p =? 0 then p else N mod p.
Proof.
  intros HN Hp offset.
  destruct (last_page_bounds N p HN Hp) as (Ho & Hlt & Hle & _).
  fold offset in Ho, Hlt, Hle.
  assert (Hmod : N mod p = (N - offset) mod p).
  { replace N with ((N - offset) + ((N + p - 1) / p - 1) * p) at 1
      by (unfold offset; lia).
    apply Z_mod_plus_full. }
  destruct (Z.eq_dec (N - offset) p) as [Heq | Hne].
  - rewrite Hmod, Heq, Z.mod_same by lia. simpl. reflexivity.
  - rewrite Hmod, Z.mod_small by lia.
    destruct (N - offset =? 0) eqn:E; [apply Z.eqb_eq in E; lia | reflexivity].
Qed.

(** C4: for a JSON file holding a list of N items, N > 100, and a page
    size p in 1..1000, the small-document answer is not taken, the
    envelope reports total N, and page ceil(N/p) returns the last
    N mod p items (p items when N mod p = 0) with no next page. *)
Theorem json_list_last_page env item_path (items : list json) (p : Z) :
  suffix item_path = ".json" ->
  load_json env item_path = Ok (JList items) ->
  100 < len items ->
  1 <= p <= 1000 ->
  let N := len items in
  let last_page := (N + p - 1) / p in
  let returned := skipn (Z.to_nat ((last_page - 1) * p)) items in
  small_json (JList items) = false /\
  len returned = (if N mod p =? 0 then p else N mod p) /\
  read_file env item_path last_page p =
    Return (JDict [("data", JList returned);
                   ("count", JInt (if N mod p =? 0 then p else N mod p));
                   ("pagination",
                     JDict [("page", JInt last_page);
                            ("page_size", JInt p);
                            ("total", JInt N);
                            ("has_next", JBool false)])]).
Proof.
  intros Hsuf Hload HN Hp N last_page returned.
  assert (Hlarge : small_json (JList items) = false).
  { unfold small_json, _count_json_items.
    pose proof (count_nested_list_ge_len items) as Hge.
    apply andb_false_intro1. apply Z.leb_gt. lia. }
  destruct (last_page_bounds N p ltac:(unfold N; lia) ltac:(lia))
    as (Ho & Hlt & Hle & Hlast).
  fold last_page in Ho, Hlt, Hle, Hlast.
  pose proof (last_page_count N p ltac:(unfold N; lia) ltac:(lia)) as Hcount.
  fold last_page in Hcount.
  assert (Hlen : len returned = N - (last_page - 1) * p).
  { unfold returned, len. rewrite length_skipn. unfold N, len in *. lia. }
  split; [exact Hlarge|]. split; [rewrite Hlen; exact Hcount|].
  rewrite (read_file_json_list_large env item_path last_page p items
             Hsuf Hload Hlarge).
  cbv zeta.
  rewrite (py_slice_to_end items ((last_page - 1) * p) p Ho Hle).
  fold returned. rewrite Hlen, Hcount.
  replace ((last_page - 1) * p + p <? len items) with false
    by (symmetry; apply Z.ltb_ge; exact Hle).
  reflexivity.
Qed.

Lemma json_list_last_page_sample :
  read_file Sample.env ["srv"; "data"; "events.json"] 3 100 =
    Return (JDict [("data", JList (repeat (JDict [("id", JInt 0)]) 50));
                   ("count", JInt 50);
                   ("pagination",
                     JDict [("page", JInt 3); ("page_size", JInt 100);
                            ("total", JInt 250); ("has_next", JBool false)])]).
Proof.
  assert (Hlong : 100 < len (repeat (JDict [("id", JInt 0)]) 250))
    by (vm_compute; reflexivity).
  assert (Hp : 1 <= 100 <= 1000) by lia.
  exact (proj2 (proj2 (json_list_last_page
                         Sample.env ["srv"; "data"; "events.json"]
                         (repeat (JDict [("id", JInt 0)]) 250) 100
                         eq_refl eq_refl Hlong Hp))).
Defined.

(* ================================================================= *)
(** ** Resource keys *)

(** Character-wise image of a string. *)
Fixpoint map_chars (f : ascii -> ascii) (s : string) : string :=
  match s with
  | EmptyString => EmptyString
  | String c s' => String (f c) (map_chars f s')
  end.

Lemma lower_map_chars (s : string) : lower s = map_chars lower_char s.
Proof. induction s as [|c s IH]; simpl; [reflexivity | rewrite IH; reflexivity]. Qed.

Lemma replace_single_char (c d : ascii) (s : string) :
  replace (String c "") (String d "") s
  = map_chars (fun a => if Ascii.eqb a c then d else a) s.
Proof.
  unfold replace.
  induction s as [|a s IH]; [reflexivity|].
  cbn [replace_from prefix String.length Nat.sub map_chars].
  destruct (ascii_dec c a) as [<- | Hne].
  - rewrite Ascii.eqb_refl.
    destruct s; cbn [prefix]; cbn [append]; rewrite IH; reflexivity.
  - destruct (Ascii.eqb_spec a c) as [-> | _]; [contradiction|].
    rewrite IH. reflexivity.
Qed.

Lemma map_chars_compose (f g : ascii -> ascii) (s : string) :
  map_chars f (map_chars g s) = map_chars (fun c => f (g c)) s.
Proof. induction s as [|c s IH]; simpl; [reflexivity | rewrite IH; reflexivity]. Qed.

Lemma map_chars_ext (f g : ascii -> ascii) (s : string) :
  (forall c, f c = g c) -> map_chars f s = map_chars g s.
Proof.
  intros Hfg. induction s as [|c s IH]; simpl; [reflexivity|].
  rewrite Hfg, IH. reflexivity.
Qed.

(** What the derivation does to one character. *)
Definition key_char (c : ascii) : ascii :=
  let l := lower_char c in
  let u := if Ascii.eqb l " " then "_"%char else l in
  if Ascii.eqb u "-" then "_"%char else u.

Lemma resource_key_chars (s : string) : resource_key s = map_chars key_char s.
Proof.
  unfold resource_key.
  rewrite (replace_single_char "-" "_"), (replace_single_char " " "_").
  rewrite lower_map_chars, !map_chars_compose. reflexivity.
Qed.

Lemma key_char_idempotent (c : ascii) : key_char (key_char c) = key_char c.
Proof.
  destruct c as [[] [] [] [] [] [] [] []]; vm_compute; reflexivity.
Qed.

(** C7: deriving a resource key (lower-casing the display name, then
    replacing every space and every hyphen with an underscore) is a
    function of the name alone, and deriving twice gives the same key
    as deriving once. *)
Theorem resource_key_idempotent (s : string) :
  resource_key (resource_key s) = resource_key s.
Proof.
  rewrite !resource_key_chars, map_chars_compose.
  apply map_chars_ext. apply key_char_idempotent.
Qed.

(* ================================================================= *)
(** ** Classification *)

Lemma suffix_of_child (folder : Path) (child : string) :
  suffix (folder ++ [child])%list = name_suffix child.
Proof. unfold suffix, name. rewrite last_last. reflexivity. Qed.

Lemma has_parquet_files_iff env folder_path :
  is_dir env folder_path = true ->
  (_has_parquet_files env folder_path = true <->
   exists child, In child (listdir env folder_path) /\
                 is_file env (folder_path ++ [child])%list = true /\
                 name_suffix child = ".parquet").
Proof.
  intros Hdir. unfold _has_parquet_files. rewrite Hdir. cbn [negb].
  rewrite existsb_exists. unfold iterdir. split.
  - intros (f & Hin & Hsuf). apply filter_In in Hin. destruct Hin as [Hin Hfile].
    apply in_map_iff in Hin. destruct Hin as (child & <- & Hchild).
    exists child. rewrite suffix_of_child in Hsuf.
    apply String.eqb_eq in Hsuf. auto.
  - intros (child & Hchild & Hfile & Hsuf).
    exists (folder_path ++ [child])%list. split.
    + apply filter_In. split; [|exact Hfile].
      apply in_map_iff. exists child. auto.
    + rewrite suffix_of_child, Hsuf. reflexivity.
Qed.

Ltac by_suffix s :=
  destruct (String.eqb_spec s ".json"); [subst s|];
  [|destruct (String.eqb_spec s ".csv"); [subst s|]];
  [| |destruct (String.eqb_spec s ".tsv"); [subst s|]];
  [| | |destruct (String.eqb_spec s ".txt"); [subst s|]];
  [| | | |destruct (String.eqb_spec s ".parquet"); [subst s|]].

Lemma classify_file env item :
  is_file env item = true ->
  (classify env item = JsonFile <-> suffix item = ".json") /\
  (classify env item = CsvFile <-> suffix item = ".csv") /\
  (classify env item = TsvOrTextFile <->
     suffix item = ".tsv" \/ suffix item = ".txt") /\
  (classify env item = ParquetFile <-> suffix item = ".parquet") /\
  (classify env item = Unsupported <-> ~ In (suffix item) supported_suffixes) /\
  classify env item <> ParquetFolder /\
  classify env item <> PlainFolder.
Proof.
  intros Hfile. unfold classify, supported_suffixes. rewrite Hfile.
  generalize (suffix item) as s. intros s. cbn [existsb In].
  by_suffix s; cbn [orb];
    repeat split; intros; try discriminate; try congruence;
    try (intuition congruence); try (left; reflexivity);
    try (right; reflexivity); intuition (try discriminate; try congruence).
Qed.

Lemma classify_directory env item :
  is_file env item = false -> is_dir env item = true ->
  (classify env item = ParquetFolder <->
     exists child, In child (listdir env item) /\
                   is_file env (item ++ [child])%list = true /\
                   name_suffix child = ".parquet") /\
  (classify env item = PlainFolder <->
     forall child, In child (listdir env item) ->
                   is_file env (item ++ [child])%list = true ->
                   name_suffix child <> ".parquet").
Proof.
  intros Hfile Hdir. unfold classify. rewrite Hfile, Hdir.
  pose proof (has_parquet_files_iff env item Hdir) as Hiff.
  destruct (_has_parquet_files env item); split; split; intros H;
    try discriminate; try reflexivity.
  - apply Hiff. reflexivity.
  - exfalso. destruct (proj1 Hiff eq_refl) as (child & Hin & Hf & Hs).
    exact (H child Hin Hf Hs).
  - apply Hiff in H. discriminate.
  - intros child Hin Hf Hs.
    assert (false = true) by (apply Hiff; eauto). discriminate.
Qed.

Lemma classify_other env item :
  is_file env item = false -> is_dir env item = false ->
  classify env item = Unsupported.
Proof. intros Hfile Hdir. unfold classify. rewrite Hfile, Hdir. reflexivity. Qed.

Lemma unsupported_iff_no_route env data_path include_schema_cols last_name item :
  classify env item = Unsupported <->
  item_routes env data_path include_schema_cols last_name item = [].
Proof.
  unfold classify, item_routes.
  destruct (is_file env item).
  - unfold supported_suffixes. generalize (suffix item) as s. intros s.
    cbn [existsb].
    by_suffix s; cbn [orb]; split; intros; try discriminate; reflexivity.
  - destruct (is_dir env item); [|split; reflexivity].
    destruct (_has_parquet_files env item); split; intros; discriminate.
Qed.

Lemma item_routes_by_kind env data_path include_schema_cols last_name item :
  item_routes env data_path include_schema_cols last_name item
  = kind_routes (classify env item) data_path include_schema_cols last_name item.
Proof.
  unfold classify, item_routes, kind_routes.
  destruct (is_file env item).
  - unfold supported_suffixes. generalize (suffix item) as s. intros s.
    cbn [existsb]. by_suffix s; reflexivity.
  - destruct (is_dir env item); [|reflexivity].
    destruct (_has_parquet_files env item); reflexivity.
Qed.

Lemma read_file_by_kind env item (page page_size : Z) :
  is_file env item = true ->
  read_file env item page page_size
  = guarded "Error reading file: "
            (kind_page env (classify env item) item page page_size).
Proof.
  intros Hfile. unfold read_file, classify, kind_page. rewrite Hfile.
  unfold supported_suffixes.
  generalize (read_json env item page page_size)
             (read_table env (csv_source item) page page_size)
             (read_table env (tsv_source item) page page_size)
             (read_table env (parquet_source item) page page_size).
  generalize (suffix item) as s. intros s rj rc rt rp.
  cbn [existsb]. by_suffix s; reflexivity.
Qed.

(** C5: classification is a total function of the entry.  A regular
    file is classified by exact (case-sensitive) comparison of its
    extension with .json, .csv, .tsv, .txt and .parquet, anything else
    being Unsupported, and an Unsupported entry gets no route.  A
    directory is a ParquetFolder exactly when one of its direct
    children is a file with extension .parquet, and a PlainFolder
    otherwise, whatever other files it holds.  The routes registered
    for an entry and the branch of [read_file] that serves it are those
    of its kind. *)
Theorem classification_is_total_and_by_extension env item :
  (exists! k, classify env item = k) /\
  (is_file env item = true ->
     (classify env item = JsonFile <-> suffix item = ".json") /\
     (classify env item = CsvFile <-> suffix item = ".csv") /\
     (classify env item = TsvOrTextFile <->
        suffix item = ".tsv" \/ suffix item = ".txt") /\
     (classify env item = ParquetFile <-> suffix item = ".parquet") /\
     (classify env item = Unsupported <->
        ~ In (suffix item) supported_suffixes) /\
     classify env item <> ParquetFolder /\
     classify env item <> PlainFolder) /\
  (is_file env item = false -> is_dir env item = true ->
     (classify env item = ParquetFolder <->
        exists child, In child (listdir env item) /\
                      is_file env (item ++ [child])%list = true /\
                      name_suffix child = ".parquet") /\
     (classify env item = PlainFolder <->
        forall child, In child (listdir env item) ->
                      is_file env (item ++ [child])%list = true ->
                      name_suffix child <> ".parquet")) /\
  (is_file env item = false -> is_dir env item = false ->
     classify env item = Unsupported) /\
  (forall data_path include_schema_cols last_name,
      item_routes env data_path include_schema_cols last_name item
      = kind_routes (classify env item) data_path include_schema_cols
                    last_name item) /\
  (forall data_path include_schema_cols last_name,
      classify env item = Unsupported <->
      item_routes env data_path include_schema_cols last_name item = []) /\
  (forall page page_size,
      is_file env item = true ->
      read_file env item page page_size
      = guarded "Error reading file: "
                (kind_page env (classify env item) item page page_size)).
Proof.
  split; [|split; [|split; [|split; [|split; [|split]]]]].
  - exists (classify env item). split; [reflexivity | auto].
  - apply classify_file.
  - apply classify_directory.
  - apply classify_other.
  - intros. apply item_routes_by_kind.
  - intros. apply unsupported_iff_no_route.
  - intros. apply read_file_by_kind. assumption.
Qed.

Lemma classification_sample :
  classify Sample.env ["srv"; "data"; "NOTES.TXT"] = Unsupported /\
  classify Sample.env ["srv"; "data"; "shards"] = ParquetFolder /\
  classify Sample.env ["srv"; "data"; "docs"] <> ParquetFolder /\
  classify Sample.env ["srv"; "data"; "run.sock"] = Unsupported.
Proof.
  pose proof (classification_is_total_and_by_extension
                Sample.env ["srv"; "data"; "NOTES.TXT"]) as (_ & Hfile & _).
  pose proof (classification_is_total_and_by_extension
                Sample.env ["srv"; "data"; "shards"]) as (_ & _ & Hshards & _).
  pose proof (classification_is_total_and_by_extension
                Sample.env ["srv"; "data"; "docs"]) as (_ & _ & Hdocs & _).
  pose proof (classification_is_total_and_by_extension
                Sample.env ["srv"; "data"; "run.sock"]) as (_ & _ & _ & Hsock & _).
  split; [|split; [|split]].
  - apply (proj1 (proj2 (proj2 (proj2 (proj2 (Hfile eq_refl)))))).
    vm_compute. intuition discriminate.
  - apply (proj1 (Hshards eq_refl eq_refl)).
    exists "part-0.parquet". vm_compute. intuition.
  - intros Hpq. apply (proj1 (Hdocs eq_refl eq_refl)) in Hpq.
    destruct Hpq as (child & Hin & _ & Hsuf).
    vm_compute in Hin. destruct Hin as [<- | []]. vm_compute in Hsuf. discriminate.
  - apply Hsock; reflexivity.
Defined.

(* ================================================================= *)
(** ** Lexicographic order *)

Section Lexicographic.
Variable A : Type.
Variable cmp : A -> A -> comparison.
Hypothesis cmp_refl : forall x, cmp x x = Eq.
Hypothesis cmp_eq : forall x y, cmp x y = Eq -> x = y.
Hypothesis cmp_antisym : forall x y, cmp x y = CompOpp (cmp y x).
Hypothesis cmp_lt_trans :
  forall x y z, cmp x y = Lt -> cmp y z = Lt -> cmp x z = Lt.

Fixpoint lex (p q : list A) : comparison :=
  match p, q with
  | [], [] => Eq
  | [], _ :: _ => Lt
  | _ :: _, [] => Gt
  | a :: p', b :: q' =>
      match cmp a b with
      | Eq => lex p' q'
      | c => c
      end
  end.

Lemma lex_refl (p : list A) : lex p p = Eq.
Proof. induction p as [|a p IH]; simpl; [reflexivity|]. rewrite cmp_refl. exact IH. Qed.

Lemma lex_eq (p q : list A) : lex p q = Eq -> p = q.
Proof.
  revert q; induction p as [|a p IH]; intros [|b q]; simpl; intros H;
    try reflexivity; try discriminate.
  destruct (cmp a b) eqn:E; try discriminate.
  apply cmp_eq in E. subst b. f_equal. apply IH. exact H.
Qed.

Lemma lex_antisym (p q : list A) : lex p q = CompOpp (lex q p).
Proof.
  revert q; induction p as [|a p IH]; intros [|b q]; simpl; try reflexivity.
  rewrite (cmp_antisym a b). destruct (cmp b a); simpl; auto.
Qed.

Lemma lex_lt_trans (p q r : list A) :
  lex p q = Lt -> lex q r = Lt -> lex p r = Lt.
Proof.
  revert q r; induction p as [|a p IH]; intros [|b q] [|c r]; simpl;
    intros H1 H2; try reflexivity; try discriminate.
  destruct (cmp a b) eqn:Eab; try discriminate.
  - apply cmp_eq in Eab. subst b.
    destruct (cmp a c); try discriminate; [eauto | reflexivity].
  - destruct (cmp b c) eqn:Ebc; try discriminate.
    + apply cmp_eq in Ebc. subst c. rewrite Eab. reflexivity.
    + rewrite (cmp_lt_trans a b c Eab Ebc). reflexivity.
Qed.

Lemma lex_le_trans (p q r : list A) :
  lex p q <> Gt -> lex q r <> Gt -> lex p r <> Gt.
Proof.
  intros H1 H2.
  destruct (lex p q) eqn:E1; [|clear H1|contradiction].
  - apply lex_eq in E1. subst q. exact H2.
  - destruct (lex q r) eqn:E2; [| |contradiction].
    + apply lex_eq in E2. subst r. rewrite E1. discriminate.
    + rewrite (lex_lt_trans p q r E1 E2). discriminate.
Qed.

Lemma lex_le_total (p q : list A) : lex p q <> Gt \/ lex q p <> Gt.
Proof.
  rewrite (lex_antisym q p). destruct (lex p q); simpl; intuition discriminate.
Qed.

Lemma lex_common_prefix (d p q : list A) : lex (d ++ p) (d ++ q) = lex p q.
Proof. induction d as [|a d IH]; simpl; [reflexivity|]. rewrite cmp_refl. exact IH. Qed.
End Lexicographic.

Lemma ascii_compare_refl (a : ascii) : Ascii.compare a a = Eq.
Proof. unfold Ascii.compare. apply N.compare_refl. Qed.

Lemma ascii_compare_lt_trans (a b c : ascii) :
  Ascii.compare a b = Lt -> Ascii.compare b c = Lt -> Ascii.compare a c = Lt.
Proof.
  unfold Ascii.compare. rewrite !N.compare_lt_iff. apply N.lt_trans.
Qed.

Lemma string_compare_lex (s t : string) :
  String.compare s t
  = lex ascii Ascii.compare (list_ascii_of_string s) (list_ascii_of_string t).
Proof.
  revert t; induction s as [|a s IH]; intros [|b t]; simpl; try reflexivity.
  rewrite IH. reflexivity.
Qed.

Lemma string_compare_refl (s : string) : String.compare s s = Eq.
Proof. rewrite string_compare_lex. apply lex_refl. apply ascii_compare_refl. Qed.

Lemma string_compare_lt_trans (s t u : string) :
  String.compare s t = Lt -> String.compare t u = Lt -> String.compare s u = Lt.
Proof.
  rewrite !string_compare_lex.
  apply lex_lt_trans;
    [apply Ascii.compare_eq_iff | apply ascii_compare_lt_trans].
Qed.

Lemma path_compare_lex (p q : Path) : path_compare p q = lex string String.compare p q.
Proof.
  revert q; induction p as [|a p IH]; intros [|b q]; simpl; try reflexivity.
Qed.

Definition path_le (p q : Path) : Prop := path_leb p q = true.

Lemma path_le_iff (p q : Path) : path_le p q <-> lex string String.compare p q <> Gt.
Proof.
  unfold path_le, path_leb. rewrite path_compare_lex.
  destruct (lex string String.compare p q); split; intros H;
    try reflexivity; try discriminate. contradiction.
Qed.

Lemma path_le_trans (p q r : Path) : path_le p q -> path_le q r -> path_le p r.
Proof.
  rewrite !path_le_iff.
  apply lex_le_trans;
    [apply String.compare_eq_iff | apply string_compare_lt_trans].
Qed.

Lemma path_le_total (p q : Path) : path_le p q \/ path_le q p.
Proof. rewrite !path_le_iff. apply lex_le_total. apply String.compare_antisym. Qed.

Lemma path_leb_siblings (d : Path) (n m : string) :
  path_leb (d ++ [n])%list (d ++ [m])%list = String.leb n m.
Proof.
  unfold path_leb. rewrite path_compare_lex.
  rewrite (lex_common_prefix string String.compare string_compare_refl).
  unfold String.leb. simpl. destruct (String.compare n m); reflexivity.
Qed.

(* ================================================================= *)
(** ** [sorted] *)

Lemma insert_sorted_perm (x : Path) (l : list Path) :
  Permutation (insert_sorted x l) (x :: l).
Proof.
  induction l as [|y l IH]; simpl; [apply Permutation_refl|].
  destruct (path_leb x y); [apply Permutation_refl|].
  eapply perm_trans; [apply perm_skip; exact IH | apply perm_swap].
Qed.

Lemma sorted_perm (l : list Path) : Permutation (sorted l) l.
Proof.
  induction l as [|x l IH]; simpl; [apply perm_nil|].
  eapply perm_trans; [apply insert_sorted_perm | apply perm_skip; exact IH].
Qed.

Lemma insert_sorted_strongly (x : Path) (l : list Path) :
  StronglySorted path_le l -> StronglySorted path_le (insert_sorted x l).
Proof.
  induction l as [|y l IH]; intros Hs; simpl.
  - constructor; constructor.
  - apply StronglySorted_inv in Hs. destruct Hs as [Hl Hy].
    destruct (path_leb x y) eqn:E.
    + constructor; [constructor; assumption|].
      constructor; [exact E|].
      rewrite Forall_forall in *. intros z Hz.
      apply (path_le_trans x y z); [exact E | apply Hy; exact Hz].
    + constructor; [apply IH; exact Hl|].
      rewrite Forall_forall in *. intros z Hz.
      apply (Permutation_in _ (insert_sorted_perm x l)) in Hz.
      destruct Hz as [<- | Hz]; [|apply Hy; exact Hz].
      destruct (path_le_total x y) as [Hxy | Hyx]; [|exact Hyx].
      unfold path_le in Hxy. congruence.
Qed.

Lemma sorted_strongly (l : list Path) : StronglySorted path_le (sorted l).
Proof.
  induction l as [|x l IH]; simpl; [constructor|].
  apply insert_sorted_strongly. exact IH.
Qed.

Lemma filter_strongly_sorted {A : Type} (R : A -> A -> Prop) (f : A -> bool)
      (l : list A) :
  StronglySorted R l -> StronglySorted R (filter f l).
Proof.
  induction 1 as [|x l Hl IH Hx]; simpl; [constructor|].
  destruct (f x); [|exact IH].
  constructor; [exact IH|].
  rewrite Forall_forall in *. intros y Hy.
  apply filter_In in Hy. apply Hx. tauto.
Qed.

Lemma strongly_sorted_on {A : Type} (R R' : A -> A -> Prop) (l : list A) :
  (forall x y, In x l -> In y l -> R x y -> R' x y) ->
  StronglySorted R l -> StronglySorted R' l.
Proof.
  intros Himp Hs. induction Hs as [|x l Hl IH Hx]; [constructor|].
  constructor.
  - apply IH. intros y z Hy Hz. apply Himp; right; assumption.
  - rewrite Forall_forall in *. intros y Hy.
    apply Himp; [left; reflexivity | right; exact Hy | apply Hx; exact Hy].
Qed.

(* ================================================================= *)
(** ** The catalog *)

Lemma permutation_filter {A : Type} (f : A -> bool) (l l' : list A) :
  Permutation l l' -> Permutation (filter f l) (filter f l').
Proof.
  induction 1 as [| x l l' _ IH | x y l | l l' l'' _ IH1 _ IH2]; simpl.
  - apply perm_nil.
  - destruct (f x); [apply perm_skip|]; exact IH.
  - destruct (f x), (f y); try apply Permutation_refl. apply perm_swap.
  - eapply perm_trans; eassumption.
Qed.

Lemma name_of_child (d : Path) (n : string) : name (d ++ [n])%list = n.
Proof. unfold name. apply last_last. Qed.

Lemma scan_is_sorted_children env data_path :
  let items := _get_items_to_process env data_path None in
  StronglySorted (fun p q => String.leb (name p) (name q) = true) items /\
  Permutation items
              (filter (fun p => is_file env p || is_dir env p)
                      (iterdir env data_path)) /\
  (forall p, In p items ->
             exists n, In n (listdir env data_path) /\ p = (data_path ++ [n])%list).
Proof.
  cbn [_get_items_to_process].
  set (keep := fun item => is_file env item || is_dir env item).
  assert (Hchild : forall p, In p (filter keep (sorted (iterdir env data_path))) ->
                             exists n, In n (listdir env data_path)
                                       /\ p = (data_path ++ [n])%list).
  { intros p Hp. apply filter_In in Hp. destruct Hp as [Hp _].
    apply (Permutation_in _ (sorted_perm _)) in Hp.
    unfold iterdir in Hp. apply in_map_iff in Hp.
    destruct Hp as (n & <- & Hn). eauto. }
  split; [|split].
  - apply (strongly_sorted_on path_le).
    + intros x y Hx Hy Hle.
      destruct (Hchild x Hx) as (n & _ & ->).
      destruct (Hchild y Hy) as (m & _ & ->).
      rewrite !name_of_child. rewrite <- (path_leb_siblings data_path). exact Hle.
    + apply filter_strongly_sorted. apply sorted_strongly.
  - apply permutation_filter. apply sorted_perm.
  - exact Hchild.
Qed.

(** C6: with an explicit, non-empty list of names the catalog is the
    list of the paths that exist, in the order given, and a name that
    does not resolve is left out without any error; without such a list
    it is made of immediate children of the data source only (those
    that are files or directories), in lexicographic order of their
    names; and [run_fastapi] raises a [ValueError] when the catalog is
    empty. *)
Theorem catalog_build env data_path :
  (forall names, names <> [] ->
     _get_items_to_process env data_path (Some names)
     = filter (path_exists env) (map (joinpath data_path) names)) /\
  (forall names n,
     In n names -> path_exists env (joinpath data_path n) = false ->
     ~ In (joinpath data_path n)
          (_get_items_to_process env data_path (Some names))) /\
  _get_items_to_process env data_path (Some [])
    = _get_items_to_process env data_path None /\
  (let items := _get_items_to_process env data_path None in
   StronglySorted (fun p q => String.leb (name p) (name q) = true) items /\
   Permutation items
               (filter (fun p => is_file env p || is_dir env p)
                       (iterdir env data_path)) /\
   (forall p, In p items ->
              exists n, In n (listdir env data_path)
                        /\ p = (data_path ++ [n])%list)) /\
  (forall path_data specific_items port host,
     1 <= port <= 65535 -> host <> "" ->
     _get_data_path env path_data = Ok data_path ->
     _get_items_to_process env data_path specific_items = [] ->
     run_fastapi env path_data specific_items port host
     = Raise (ValueError
                ("No items found in " ++ str_path data_path
                   ++ match specific_items with
                      | Some ((_ :: _) as names) =>
                          " matching " ++ repr_names env names
                      | _ => ""
                      end))).
Proof.
  split; [|split; [|split; [|split]]].
  - intros [|n names] Hne; [contradiction | reflexivity].
  - intros [|n0 names] n Hin Hmissing Hkept; [destruct Hin|].
    cbn [_get_items_to_process] in Hkept.
    apply filter_In in Hkept. destruct Hkept as [_ Hex]. congruence.
  - reflexivity.
  - apply scan_is_sorted_children.
  - intros path_data specific_items port host Hport Hhost Hpath Hempty.
    unfold run_fastapi.
    replace ((port <? 1) || (port >? 65535)) with false
      by (symmetry; apply orb_false_intro; [apply Z.ltb_ge | rewrite Z.gtb_ltb; apply Z.ltb_ge]; lia).
    destruct (String.eqb_spec host "") as [-> | _]; [contradiction|].
    rewrite Hpath, Hempty. reflexivity.
Qed.

Lemma catalog_build_sample :
  _get_items_to_process Sample.env Sample.data_path
                        (Some ["users.json"; "nope.csv"; "shards"])
  = [["srv"; "data"; "users.json"]; ["srv"; "data"; "shards"]] /\
  run_fastapi Sample.env "/srv/data" (Some ["zzz"]) 8000 "127.0.0.1"
  = Raise (ValueError "No items found in /srv/data matching ['zzz']").
Proof.
  destruct (catalog_build Sample.env Sample.data_path)
    as (Hexplicit & _ & _ & _ & Hcaller).
  split.
  - rewrite Hexplicit by discriminate. reflexivity.
  - assert (Hport : 1 <= 8000 <= 65535) by lia.
    assert (Hhost : "127.0.0.1" <> "") by discriminate.
    exact (Hcaller "/srv/data" (Some ["zzz"]) 8000 "127.0.0.1"
                   Hport Hhost eq_refl eq_refl).
Defined.

(* ================================================================= *)
(** ** Failures of the parser and of the engine *)

Lemma read_file_table env item_path source page page_size :
  table_source item_path = Some source ->
  read_file env item_path page page_size
  = guarded "Error reading file: " (read_table env source page page_size).
Proof.
  unfold table_source, read_file.
  destruct (String.eqb (suffix item_path) ".json"); [discriminate|].
  destruct (String.eqb (suffix item_path) ".csv"); [intros [= <-]; reflexivity|].
  destruct (existsb (String.eqb (suffix item_path)) [".tsv"; ".txt"]);
    [intros [= <-]; reflexivity|].
  destruct (String.eqb (suffix item_path) ".parquet");
    [intros [= <-]; reflexivity | discriminate].
Qed.

Lemma read_table_count_fails env source page page_size e :
  execute env (count_query source) = Raise e ->
  read_table env source page page_size = Raise e.
Proof. intros H. unfold read_table. rewrite H. reflexivity. Qed.

Lemma read_table_page_fails env source page page_size total_result total_count e :
  execute env (count_query source) = Ok total_result ->
  first_cell_or_zero (rows total_result) = Ok total_count ->
  execute env (page_query source page_size ((page - 1) * page_size)) = Raise e ->
  read_table env source page page_size = Raise e.
Proof.
  intros Hcount Hcell Hpage. unfold read_table.
  rewrite Hcount. cbn [bind]. rewrite Hcell. cbn [bind].
  rewrite Hpage. reflexivity.
Qed.

Lemma column_info_raise env example_query desc e :
  execute env (example_query (fst desc)) = Raise e ->
  column_info env example_query desc = Raise e.
Proof. intros H. unfold column_info. rewrite H. reflexivity. Qed.

Lemma column_info_ok env example_query desc r :
  execute env (example_query (fst desc)) = Ok r ->
  exists info, column_info env example_query desc = Ok info.
Proof. intros H. unfold column_info. rewrite H. cbn [bind]. eauto. Qed.

Lemma for_each_first_failure {A B : Type} (f : A -> result B)
      (before : list A) (a : A) (after : list A) (e : exc) :
  (forall x, In x before -> exists b, f x = Ok b) ->
  f a = Raise e ->
  for_each f (before ++ a :: after) = Raise e.
Proof.
  intros Hbefore Ha. induction before as [|x before IH]; cbn [app for_each].
  - rewrite Ha. reflexivity.
  - destruct (Hbefore x (or_introl eq_refl)) as [b Hb]. rewrite Hb. cbn [bind].
    rewrite IH; [reflexivity|]. intros y Hy. apply Hbefore. right. exact Hy.
Qed.

Lemma columns_loop_fails env example_query before desc after e :
  (forall d, In d before -> exists r, execute env (example_query (fst d)) = Ok r) ->
  execute env (example_query (fst desc)) = Raise e ->
  for_each (column_info env example_query) (before ++ desc :: after) = Raise e.
Proof.
  intros Hbefore Hdesc. apply for_each_first_failure.
  - intros d Hd. destruct (Hbefore d Hd) as [r Hr].
    apply (column_info_ok env example_query d r Hr).
  - apply column_info_raise. exact Hdesc.
Qed.

(** C9: whichever handler serves a page or a schema, when the JSON
    parser or an engine call raises, the handler ends with an
    [HTTPException] of status 500 whose detail is the handler's prefix
    followed by the message of that exception; it returns no body. *)
Theorem engine_failure_is_wrapped env h (page page_size : Z) e :
  first_failure env h page page_size e ->
  handle env h page page_size = HTTPException 500 (error_prefix h ++ str_exc e) /\
  forall body, handle env h page page_size <> Return body.
Proof.
  intros Hfail.
  assert (Hwrapped : handle env h page page_size
                     = HTTPException 500 (error_prefix h ++ str_exc e)).
  { destruct Hfail; cbn [handle error_prefix].
    - unfold read_file.
      match goal with H : suffix _ = _ |- _ => rewrite H end.
      change (String.eqb ".json" ".json") with true. cbv iota.
      apply guarded_raise. unfold read_json.
      match goal with H : load_json _ _ = _ |- _ => rewrite H end. reflexivity.
    - erewrite read_file_table by eassumption.
      apply guarded_raise. apply read_table_count_fails. assumption.
    - erewrite read_file_table by eassumption.
      apply guarded_raise. eapply read_table_page_fails; eassumption.
    - apply guarded_raise. apply read_table_count_fails. assumption.
    - apply guarded_raise. eapply read_table_page_fails; eassumption.
    - apply guarded_raise.
      match goal with H : schema_query _ = _ |- _ => rewrite H end. cbn [bind].
      match goal with H : execute _ _ = _ |- _ => rewrite H end. reflexivity.
    - apply guarded_raise.
      match goal with H : schema_query _ = _ |- _ => rewrite H end. cbn [bind].
      match goal with H : execute _ query = _ |- _ => rewrite H end. cbn [bind].
      unfold iter_description.
      match goal with H : description _ = _ |- _ => rewrite H end. cbn [bind].
      rewrite (columns_loop_fails env (file_example_query query)
                 before desc after e) by assumption.
      reflexivity.
    - apply guarded_raise.
      match goal with H : execute _ _ = _ |- _ => rewrite H end. reflexivity.
    - apply guarded_raise.
      match goal with
        H : execute _ (folder_schema_query _) = _ |- _ => rewrite H
      end. cbn [bind].
      unfold iter_description.
      match goal with H : description _ = _ |- _ => rewrite H end. cbn [bind].
      rewrite (columns_loop_fails env (folder_example_query item_path)
                 before desc after e) by assumption.
      reflexivity. }
  split; [exact Hwrapped|].
  intros body. rewrite Hwrapped. discriminate.
Qed.

Lemma engine_failure_sample :
  handle Sample.env (ReadFile ["srv"; "data"; "broken.json"]) 1 5
  = HTTPException 500
      "Error reading file: Expecting value: line 1 column 1 (char 0)" /\
  handle Sample.env (ReadParquetFolder ["srv"; "data"; "shards"]) 1 5
  = HTTPException 500
      "Error reading parquet folder: IO Error: No files found that match the pattern".
Proof.
  split.
  - apply (engine_failure_is_wrapped
             Sample.env (ReadFile ["srv"; "data"; "broken.json"]) 1 5
             (JSONDecodeError "Expecting value: line 1 column 1 (char 0)")).
    apply fail_parse; reflexivity.
  - apply (engine_failure_is_wrapped
             Sample.env (ReadParquetFolder ["srv"; "data"; "shards"]) 1 5
             (DuckDBError "IO Error: No files found that match the pattern")).
    apply fail_folder_count. reflexivity.
Defined.

(* ================================================================= *)
(** ** Schema introspection *)

Lemma column_index_found (c ty : string) (cols : list (string * string)) :
  In (c, ty) cols -> exists i, column_index c cols = Some i.
Proof.
  induction cols as [|[c' ty'] cols IH]; intros Hin; [destruct Hin|].
  cbn [column_index].
  destruct (String.eqb_spec c c') as [_ | Hne]; [eauto|].
  destruct Hin as [Heq | Hin]; [congruence|].
  destruct (IH Hin) as [i Hi]. rewrite Hi. simpl. eauto.
Qed.

Lemma column_info_of_table env example_query t desc :
  In desc (table_columns t) ->
  execute env (example_query (fst desc)) = select_column_limit_1 t (fst desc) ->
  column_info env example_query desc
  = Ok (descriptor env (first_row_cell t) desc).
Proof.
  destruct desc as [c ty]. cbn [fst]. intros Hin Hexec.
  unfold column_info, descriptor, first_row_cell. cbn [fst snd].
  rewrite Hexec. unfold select_column_limit_1.
  destruct (column_index_found c ty (table_columns t) Hin) as [i Hi].
  rewrite Hi. cbn [bind rows].
  destruct (table_rows t) as [|r rest]; [reflexivity|].
  cbn [firstn map first_cell_or_none].
  destruct (nth i r JNull); reflexivity.
Qed.

Lemma columns_loop_of_table env example_query t (descs : list (string * string)) :
  (forall desc, In desc descs -> In desc (table_columns t)) ->
  (forall c ty, In (c, ty) (table_columns t) ->
                execute env (example_query c) = select_column_limit_1 t c) ->
  for_each (column_info env example_query) descs
  = Ok (map (descriptor env (first_row_cell t)) descs).
Proof.
  intros Hsub Hexec. induction descs as [|desc descs IH]; [reflexivity|].
  cbn [for_each map].
  rewrite (column_info_of_table env example_query t desc).
  - cbn [bind]. rewrite IH; [reflexivity|].
    intros d Hd. apply Hsub. right. exact Hd.
  - apply Hsub. left. reflexivity.
  - destruct desc as [c ty]. apply (Hexec c ty). apply Hsub. left. reflexivity.
Qed.

Lemma column_info_answer env example_query desc info :
  column_info env example_query desc = Ok info ->
  exists result,
    execute env (example_query (fst desc)) = Ok result /\
    info = column_descriptor env desc result.
Proof.
  unfold column_info. intros H. apply bind_ok in H.
  destruct H as (result & Hexec & H). injection H as <-.
  exists result. split; [exact Hexec|].
  unfold column_descriptor.
  destruct (first_cell_or_none (rows result)); reflexivity.
Qed.

Lemma columns_loop_answer env example_query descs infos :
  for_each (column_info env example_query) descs = Ok infos ->
  Forall2 (fun desc info =>
             exists result,
               execute env (example_query (fst desc)) = Ok result /\
               info = column_descriptor env desc result)
          descs infos.
Proof.
  revert infos; induction descs as [|desc descs IH]; intros infos H.
  - injection H as <-. constructor.
  - cbn [for_each] in H.
    apply bind_ok in H. destruct H as (info & Hinfo & H).
    apply bind_ok in H. destruct H as (rest & Hrest & H).
    injection H as <-. constructor.
    + apply column_info_answer. exact Hinfo.
    + apply IH. exact Hrest.
Qed.

Lemma for_each_some_failure {A B : Type} (f : A -> result B) (l : list A)
      (a : A) (e : exc) :
  In a l -> f a = Raise e -> exists e', for_each f l = Raise e'.
Proof.
  induction l as [|x l IH]; intros Hin Hfail; [destruct Hin|].
  cbn [for_each]. destruct (f x) as [b|e0] eqn:Hx; [|eexists; reflexivity].
  destruct Hin as [-> | Hin]; [congruence|].
  destruct (IH Hin Hfail) as [e' He']. rewrite He'. eexists. reflexivity.
Qed.

Lemma iter_description_ok (r : QueryResult) (descs : list (string * string)) :
  iter_description r = Ok descs -> description r = Some descs.
Proof.
  unfold iter_description. destruct (description r); [congruence | discriminate].
Qed.

(** C8 (amended): for every column in a schema introspection result,
    the example value is the [str] of the first cell of the first row
    that the engine returns for the single-column [LIMIT 1] query the
    handler issues for that column, the column name being pasted into
    the query as it is, or the string NULL when that query returns no
    row, an empty row or a null cell.  When the engine answers that
    query as the projection of the column of a table, this is the
    column's cell in the first row of the table, null or not, and not
    its first non-null value.  An example value is always a string,
    never null.  When introspection returns a result it has one
    descriptor per column of the probe's description, in order, sliced
    by the page request; when a single-column query fails it returns
    no result and ends with status 500. *)
Theorem schema_examples_come_from_first_row
        env item_path (page page_size : Z) :
  let answer_of (query : string) (example_query : string -> string)
                (body : json) :=
    exists probe descs infos,
      execute env query = Ok probe /\
      description probe = Some descs /\
      Forall2 (fun desc info =>
                 exists result,
                   execute env (example_query (fst desc)) = Ok result /\
                   info = column_descriptor env desc result)
              descs infos /\
      body = columns_page infos page page_size in
  (forall body,
      get_column_info env item_path page page_size = Return body ->
      exists query,
        schema_query item_path = Ok query /\
        answer_of query (file_example_query query) body) /\
  (forall body,
      get_parquet_folder_column_info env item_path page page_size = Return body ->
      answer_of (folder_schema_query item_path)
                (folder_example_query item_path) body) /\
  (forall desc result,
      get_item (column_descriptor env desc result) "column_name"
      = Some (JString (fst desc)) /\
      (exists s,
          get_item (column_descriptor env desc result) "example_value"
          = Some (JString s)) /\
      (forall v rest more,
          rows result = (v :: rest) :: more -> v <> JNull ->
          get_item (column_descriptor env desc result) "example_value"
          = Some (JString (str_value env v))) /\
      ((rows result = []
        \/ (exists more, rows result = [] :: more)
        \/ (exists rest more, rows result = (JNull :: rest) :: more)) ->
       get_item (column_descriptor env desc result) "example_value"
       = Some (JString "NULL"))) /\
  (forall query probe descs desc e,
      schema_query item_path = Ok query ->
      execute env query = Ok probe ->
      description probe = Some descs ->
      In desc descs ->
      execute env (file_example_query query (fst desc)) = Raise e ->
      exists detail,
        get_column_info env item_path page page_size
        = HTTPException 500 detail) /\
  (forall probe descs desc e,
      execute env (folder_schema_query item_path) = Ok probe ->
      description probe = Some descs ->
      In desc descs ->
      execute env (folder_example_query item_path (fst desc)) = Raise e ->
      exists detail,
        get_parquet_folder_column_info env item_path page page_size
        = HTTPException 500 detail) /\
  (forall (t : Table) query,
      schema_query item_path = Ok query ->
      answers_schema_queries env query (file_example_query query) t ->
      get_column_info env item_path page page_size
      = Return (columns_page
                  (map (descriptor env (first_row_cell t)) (table_columns t))
                  page page_size)) /\
  (forall t : Table,
      answers_schema_queries env (folder_schema_query item_path)
                             (folder_example_query item_path) t ->
      get_parquet_folder_column_info env item_path page page_size
      = Return (columns_page
                  (map (descriptor env (first_row_cell t)) (table_columns t))
                  page page_size)).
Proof.
  intros answer_of.
  split; [|split; [|split; [|split; [|split; [|split]]]]].
  - intros body Hret. unfold get_column_info in Hret.
    apply guarded_return in Hret.
    apply bind_ok in Hret. destruct Hret as (query & Hquery & Hret).
    apply bind_ok in Hret. destruct Hret as (probe & Hprobe & Hret).
    apply bind_ok in Hret. destruct Hret as (descs & Hdescs & Hret).
    apply bind_ok in Hret. destruct Hret as (infos & Hinfos & Hret).
    injection Hret as <-.
    exists query. split; [exact Hquery|].
    exists probe, descs, infos. split; [exact Hprobe|].
    split; [apply iter_description_ok; exact Hdescs|].
    split; [apply columns_loop_answer; exact Hinfos | reflexivity].
  - intros body Hret. unfold get_parquet_folder_column_info in Hret.
    apply guarded_return in Hret.
    apply bind_ok in Hret. destruct Hret as (probe & Hprobe & Hret).
    apply bind_ok in Hret. destruct Hret as (descs & Hdescs & Hret).
    apply bind_ok in Hret. destruct Hret as (infos & Hinfos & Hret).
    injection Hret as <-.
    exists probe, descs, infos. split; [exact Hprobe|].
    split; [apply iter_description_ok; exact Hdescs|].
    split; [apply columns_loop_answer; exact Hinfos | reflexivity].
  - intros desc result. split; [reflexivity|]. split; [eexists; reflexivity|].
    unfold column_descriptor. cbn [get_item assoc String.eqb Ascii.eqb Bool.eqb].
    split.
    + intros v rest more -> Hv. cbn [first_cell_or_none].
      destruct v; try reflexivity. contradiction.
    + intros [-> | [[more ->] | (rest & more & ->)]]; reflexivity.
  - intros query probe descs desc e Hquery Hprobe Hdescs Hin Hfail.
    unfold get_column_info. rewrite Hquery. cbn [bind].
    rewrite Hprobe. cbn [bind]. unfold iter_description. rewrite Hdescs.
    cbn [bind].
    destruct (for_each_some_failure
                (column_info env (file_example_query query)) descs desc e Hin
                (column_info_raise env (file_example_query query) desc e Hfail))
      as [e' He'].
    rewrite He'. eexists. reflexivity.
  - intros probe descs desc e Hprobe Hdescs Hin Hfail.
    unfold get_parquet_folder_column_info.
    rewrite Hprobe. cbn [bind]. unfold iter_description. rewrite Hdescs.
    cbn [bind].
    destruct (for_each_some_failure
                (column_info env (folder_example_query item_path)) descs desc e
                Hin
                (column_info_raise env (folder_example_query item_path) desc e
                                   Hfail))
      as [e' He'].
    rewrite He'. eexists. reflexivity.
  - intros t query Hquery [Hprobe Hexamples].
    unfold get_column_info. rewrite Hquery. cbn [bind].
    rewrite Hprobe. cbn [bind iter_description select_all_limit_1 description].
    rewrite (columns_loop_of_table env (file_example_query query) t
               (table_columns t)); [reflexivity | auto | exact Hexamples].
  - intros t [Hprobe Hexamples].
    unfold get_parquet_folder_column_info.
    rewrite Hprobe. cbn [bind iter_description select_all_limit_1 description].
    rewrite (columns_loop_of_table env (folder_example_query item_path) t
               (table_columns t)); [reflexivity | auto | exact Hexamples].
Qed.

Lemma sample_engine_reads_people :
  answers_schema_queries Sample.env Sample.people_probe
                         (file_example_query Sample.people_probe) Sample.people.
Proof.
  split; [reflexivity|].
  intros c ty [[= <- <-] | [[= <- <-] | []]]; reflexivity.
Defined.

Lemma schema_examples_sample :
  get_column_info Sample.env ["srv"; "data"; "people.parquet"] 1 5
  = Return
      (JDict [("columns",
                JList [JDict [("column_name", JString "id");
                              ("data_type", JString "BIGINT");
                              ("example_value", JString "1")];
                       JDict [("column_name", JString "nick");
                              ("data_type", JString "VARCHAR");
                              ("example_value", JString "NULL")]]);
              ("count", JInt 2);
              ("pagination",
                JDict [("page", JInt 1); ("page_size", JInt 5);
                       ("total", JInt 2); ("has_next", JBool false)])]).
Proof.
  destruct (schema_examples_come_from_first_row
              Sample.env ["srv"; "data"; "people.parquet"] 1 5)
    as (_ & _ & _ & _ & _ & Hfile & _).
  exact (Hfile Sample.people Sample.people_probe eq_refl
               sample_engine_reads_people).
Defined.

(** C8, as worded: in [people.parquet] the first non-null nickname is
    [bo], in the second row; the schema handler reports NULL for that
    column, the cell of the first row. *)
Lemma example_value_is_first_row_not_first_non_null :
  answers_schema_queries Sample.env Sample.people_probe
                         (file_example_query Sample.people_probe) Sample.people /\
  first_non_null Sample.people "nick" = Some (JString "bo") /\
  example_as_specified Sample.env Sample.people "nick" = "bo" /\
  exists body id_info nick_info,
    get_column_info Sample.env ["srv"; "data"; "people.parquet"] 1 5 = Return body /\
    get_item body "columns" = Some (JList [id_info; nick_info]) /\
    get_item nick_info "column_name" = Some (JString "nick") /\
    get_item nick_info "example_value" = Some (JString "NULL") /\
    get_item nick_info "example_value"
      <> Some (JString (example_as_specified Sample.env Sample.people "nick")).
Proof.
  split; [exact sample_engine_reads_people|].
  split; [reflexivity|]. split; [reflexivity|].
  do 3 eexists. split; [reflexivity|].
  split; [reflexivity|]. split; [reflexivity|]. split; [reflexivity|].
  discriminate.
Qed.

(* ================================================================= *)
(** * Further properties of the module *)

(* ================================================================= *)
(** ** The small-document test *)

Lemma max_scan_le_sum (fields : list (string * json)) (m a : Z) :
  0 <= a -> m <= a ->
  fold_left max_step fields m
  <= a + fold_right Z.add 0 (map (fun kv => count_nested (snd kv)) fields).
Proof.
  revert m a; induction fields as [|kv fields IH]; intros m a Ha Hm; simpl.
  - lia.
  - pose proof (count_nested_nonneg (snd kv)) as Hc.
    specialize (IH (max_step m kv) (a + count_nested (snd kv))).
    assert (Hstep : max_step m kv <= a + count_nested (snd kv)).
    { unfold max_step. destruct (is_collection (snd kv)); lia. }
    specialize (IH ltac:(lia) Hstep). lia.
Qed.

(** X1: The second component of [_count_json_items] never exceeds the
    first, so the test [total_count <= 100 and max_nested <= 100] of
    [read_file] is decided by the total alone. *)
Theorem bypass_test_is_decided_by_total (obj : json) :
  snd (_count_json_items obj) <= fst (_count_json_items obj) /\
  small_json obj = (fst (_count_json_items obj) <=? 100).
Proof.
  assert (Hle : snd (_count_json_items obj) <= fst (_count_json_items obj)).
  { destruct obj; cbn [_count_json_items fst snd];
      try (pose proof (count_nested_nonneg JNull); simpl; lia).
    - apply count_nested_list_ge_len.
    - cbn [count_nested]. rewrite py_sum_fold_right.
      pose proof (max_scan_le_sum fields 0 0 ltac:(lia) ltac:(lia)). lia. }
  split; [exact Hle|].
  unfold small_json.
  destruct (_count_json_items obj) as [total_count max_nested].
  cbn [fst snd] in *.
  destruct (total_count <=? 100) eqn:E; [|reflexivity].
  apply Z.leb_le in E. cbn [andb]. apply Z.leb_le. lia.
Qed.

Lemma sum_of_scalars (items : list json) :
  Forall (fun v => is_collection v = false) items ->
  fold_right Z.add 0 (map count_nested items) = len items.
Proof.
  unfold len. induction 1 as [|v items Hv _ IH].
  - reflexivity.
  - cbn [map fold_right length]. rewrite IH.
    destruct v; try discriminate; simpl count_nested; lia.
Qed.

(** X2: A list of [n] scalars counts [2 * n]: each element is counted once
    by [len] and once by itself.  Such a list is served whole exactly
    when it has at most 50 elements, and the [count] of that answer is
    [2 * n], twice the number of elements returned. *)
Theorem flat_list_counts_each_item_twice
        env item_path (page page_size : Z) (items : list json) :
  Forall (fun v => is_collection v = false) items ->
  _count_json_items (JList items) = (2 * len items, len items) /\
  small_json (JList items) = (len items <=? 50) /\
  (suffix item_path = ".json" ->
   load_json env item_path = Ok (JList items) ->
   len items <= 50 ->
   read_file env item_path page page_size
   = Return (JDict [("data", JList items);
                    ("count", JInt (2 * len items));
                    ("pagination",
                      pagination (JInt 1) (JInt (2 * len items))
                                 (JInt (2 * len items)) (JBool false))])).
Proof.
  intros Hflat.
  assert (Hcount : _count_json_items (JList items) = (2 * len items, len items)).
  { unfold _count_json_items. cbn [count_nested].
    rewrite py_sum_fold_right, (sum_of_scalars items Hflat).
    f_equal. lia. }
  assert (Hsmall : small_json (JList items) = (len items <=? 50)).
  { unfold small_json. rewrite Hcount.
    pose proof (len_nonneg items).
    destruct (len items <=? 50) eqn:E.
    - apply Z.leb_le in E. apply andb_true_intro.
      split; apply Z.leb_le; lia.
    - apply Z.leb_gt in E. apply andb_false_intro1. apply Z.leb_gt. lia. }
  split; [exact Hcount|]. split; [exact Hsmall|].
  intros Hsuf Hload Hlen.
  rewrite (read_file_json_small env item_path page page_size (JList items)
             Hsuf Hload).
  - unfold whole_document. rewrite Hcount. reflexivity.
  - rewrite Hsmall. apply Z.leb_le. exact Hlen.
Qed.

Lemma flat_list_sample :
  _count_json_items (JList [JInt 7; JString "x"; JNull]) = (6, 3).
Proof.
  assert (Hflat : Forall (fun v => is_collection v = false)
                         [JInt 7; JString "x"; JNull])
    by (repeat constructor).
  exact (proj1 (flat_list_counts_each_item_twice
                  Sample.env ["srv"; "data"; "users.json"] 1 5
                  [JInt 7; JString "x"; JNull] Hflat)).
Defined.

(* ================================================================= *)
(** ** Pages of a long JSON document *)

Lemma py_slice_window {A : Type} (l : list A) (offset n : Z) :
  0 <= offset -> 0 <= n ->
  py_slice l offset (offset + n)
  = firstn (Z.to_nat n) (skipn (Z.to_nat offset) l).
Proof.
  intros Ho Hn. unfold py_slice, adjust_index.
  destruct (offset <? 0) eqn:E1; [apply Z.ltb_lt in E1; lia|].
  destruct (offset + n <? 0) eqn:E2; [apply Z.ltb_lt in E2; lia|].
  unfold len.
  destruct (Z.le_gt_cases offset (Z.of_nat (length l))) as [Hin | Hout].
  - replace (Z.min offset (Z.of_nat (length l))) with offset by lia.
    destruct (Z.le_gt_cases (offset + n) (Z.of_nat (length l))) as [Hfull | Hcut].
    + replace (Z.min (offset + n) (Z.of_nat (length l)) - offset) with n by lia.
      reflexivity.
    + replace (Z.min (offset + n) (Z.of_nat (length l)))
        with (Z.of_nat (length l)) by lia.
      rewrite !firstn_all2; try reflexivity; rewrite length_skipn; lia.
  - replace (Z.min offset (Z.of_nat (length l))) with (Z.of_nat (length l)) by lia.
    rewrite !skipn_all2 by lia. rewrite !firstn_nil. reflexivity.
Qed.

Lemma py_slice_nth {A : Type} (l : list A) (offset n : Z) (j : nat) :
  0 <= offset -> 0 <= n ->
  nth_error (py_slice l offset (offset + n)) j
  = if Z.of_nat j <? n then nth_error l (Z.to_nat offset + j) else None.
Proof.
  intros Ho Hn. rewrite py_slice_window by assumption.
  rewrite nth_error_firstn, nth_error_skipn.
  destruct (Z.of_nat j <? n) eqn:E.
  - apply Z.ltb_lt in E.
    replace (j <? Z.to_nat n)%nat with true
      by (symmetry; apply Nat.ltb_lt; lia).
    reflexivity.
  - apply Z.ltb_ge in E.
    replace (j <? Z.to_nat n)%nat with false
      by (symmetry; apply Nat.ltb_ge; lia).
    reflexivity.
Qed.

(** X3: The data pages of a JSON list that is not served whole cut the
    list into consecutive windows: on page [page] with page size [p],
    the entry at local index [j < p] is entry [(page - 1) * p + j] of
    the document, and the page has no entry at index [p] or beyond.
    Every entry of the list therefore appears on exactly one page, at
    index [i mod p] of page [i / p + 1]. *)
Theorem json_pages_partition_the_list
        env item_path (items : list json) (page p : Z) :
  suffix item_path = ".json" ->
  load_json env item_path = Ok (JList items) ->
  small_json (JList items) = false ->
  1 <= page -> 1 <= p ->
  exists body page_data,
    read_file env item_path page p = Return body /\
    get_item body "data" = Some (JList page_data) /\
    (forall j : nat,
        nth_error page_data j
        = if Z.of_nat j <? p
          then nth_error items (Z.to_nat ((page - 1) * p) + j)
          else None) /\
    (forall i : nat,
        page = Z.of_nat i / p + 1 ->
        nth_error page_data (Z.to_nat (Z.of_nat i mod p)) = nth_error items i).
Proof.
  intros Hsuf Hload Hlarge Hpage Hp.
  rewrite (read_file_json_list_large env item_path page p items Hsuf Hload Hlarge).
  cbv zeta. do 2 eexists. split; [reflexivity|]. split; [reflexivity|].
  assert (Hoff : 0 <= (page - 1) * p) by nia.
  split.
  - intros j. apply py_slice_nth; lia.
  - intros i ->. rewrite py_slice_nth by lia.
    pose proof (Z.mod_pos_bound (Z.of_nat i) p ltac:(lia)) as Hmod.
    pose proof (Z.div_mod (Z.of_nat i) p ltac:(lia)) as Hdiv.
    replace (Z.of_nat (Z.to_nat (Z.of_nat i mod p)) <? p) with true
      by (symmetry; apply Z.ltb_lt; lia).
    f_equal.
    assert (0 <= Z.of_nat i / p) by (apply Z.div_pos; lia).
    nia.
Qed.

Lemma json_pages_partition_sample :
  exists body page_data,
    read_file Sample.env ["srv"; "data"; "events.json"] 3 100 = Return body /\
    get_item body "data" = Some (JList page_data) /\
    nth_error page_data 49 = nth_error (repeat (JDict [("id", JInt 0)]) 250) 249.
Proof.
  assert (Hpage : 1 <= 3) by lia.
  assert (Hp : 1 <= 100) by lia.
  destruct (json_pages_partition_the_list
              Sample.env ["srv"; "data"; "events.json"]
              (repeat (JDict [("id", JInt 0)]) 250) 3 100
              eq_refl eq_refl eq_refl Hpage Hp)
    as (body & page_data & Hbody & Hdata & _ & Hindex).
  exists body, page_data. split; [exact Hbody|]. split; [exact Hdata|].
  exact (Hindex 249%nat eq_refl).
Defined.

(** X4: A page that starts at or beyond the end of a JSON list that is not
    served whole is not an error: it carries no row, [count] 0, the
    true total and no next page. *)
Theorem json_page_past_the_end_is_empty
        env item_path (items : list json) (page p : Z) :
  suffix item_path = ".json" ->
  load_json env item_path = Ok (JList items) ->
  small_json (JList items) = false ->
  1 <= page -> 1 <= p ->
  len items <= (page - 1) * p ->
  read_file env item_path page p
  = Return (JDict [("data", JList []);
                   ("count", JInt 0);
                   ("pagination",
                     pagination (JInt page) (JInt p) (JInt (len items))
                                (JBool false))]).
Proof.
  intros Hsuf Hload Hlarge Hpage Hp Hpast.
  rewrite (read_file_json_list_large env item_path page p items Hsuf Hload Hlarge).
  cbv zeta.
  assert (Hoff : 0 <= (page - 1) * p) by nia.
  rewrite (py_slice_to_end items ((page - 1) * p) p Hoff ltac:(lia)).
  rewrite skipn_all2 by (unfold len in Hpast; lia).
  replace ((page - 1) * p + p <? len items) with false
    by (symmetry; apply Z.ltb_ge; lia).
  reflexivity.
Qed.

Lemma json_page_past_the_end_sample :
  read_file Sample.env ["srv"; "data"; "events.json"] 4 100
  = Return (JDict [("data", JList []);
                   ("count", JInt 0);
                   ("pagination",
                     pagination (JInt 4) (JInt 100) (JInt 250) (JBool false))]).
Proof.
  assert (Hpage : 1 <= 4) by lia.
  assert (Hp : 1 <= 100) by lia.
  assert (Hpast : len (repeat (JDict [("id", JInt 0)]) 250) <= (4 - 1) * 100)
    by (vm_compute; discriminate).
  exact (json_page_past_the_end_is_empty
           Sample.env ["srv"; "data"; "events.json"]
           (repeat (JDict [("id", JInt 0)]) 250) 4 100
           eq_refl eq_refl eq_refl Hpage Hp Hpast).
Defined.

(** X5: A JSON document that is not a list and is not served whole (a
    mapping with a structural total above 100) is paged as a list of
    one element: page 1 carries the whole document, whatever the page
    size, and every later page is empty; the total is 1. *)
Theorem large_mapping_is_a_single_row
        env item_path (doc : json) (page p : Z) :
  suffix item_path = ".json" ->
  load_json env item_path = Ok doc ->
  small_json doc = false ->
  (forall items, doc <> JList items) ->
  1 <= page -> 1 <= p ->
  read_file env item_path page p
  = Return (JDict [("data", JList (if page =? 1 then [doc] else []));
                   ("count", JInt (if page =? 1 then 1 else 0));
                   ("pagination",
                     pagination (JInt page) (JInt p) (JInt 1) (JBool false))]).
Proof.
  intros Hsuf Hload Hlarge Hnot Hpage Hp.
  rewrite (read_file_json_other_large env item_path page p doc
             Hsuf Hload Hlarge Hnot).
  cbv zeta.
  assert (Hoff : 0 <= (page - 1) * p) by nia.
  replace ((page - 1) * p + p <? 1) with false
    by (symmetry; apply Z.ltb_ge; lia).
  destruct (page =? 1) eqn:E.
  - apply Z.eqb_eq in E. subst page.
    replace ((1 - 1) * p) with 0 by lia.
    rewrite (py_slice_window [doc] 0 p) by lia.
    change (Z.to_nat 0) with 0%nat. cbn [skipn].
    rewrite firstn_all2 by (cbn [length]; lia). reflexivity.
  - apply Z.eqb_neq in E.
    rewrite (py_slice_to_end [doc] ((page - 1) * p) p Hoff)
      by (unfold len; simpl; lia).
    destruct (Z.to_nat ((page - 1) * p)) as [|k] eqn:Ek; [nia|].
    destruct k; reflexivity.
Qed.

(* ================================================================= *)
(** ** Rows and pages of tabular sources *)

(** [dict(zip(columns, row))] *)
Definition row_dict (columns : list string) (row : list json) : json :=
  JDict (py_dict (combine columns row)).

(** The engine's answers over a table: [SELECT COUNT( * )] and
    [SELECT * ... LIMIT limit OFFSET offset]. *)
Definition select_count (t : Table) : QueryResult :=
  {| rows := [[JInt (len (table_rows t))]];
     description := Some [("cnt", "BIGINT")] |}.

Definition select_page (t : Table) (limit offset : Z) : QueryResult :=
  {| rows := firstn (Z.to_nat limit) (skipn (Z.to_nat offset) (table_rows t));
     description := Some (table_columns t) |}.

(** [env] answers the two queries of a data page on [source] as an
    engine reading table [t] would. *)
Definition answers_page_queries (env : Env) (source : string) (t : Table)
           (page_size offset : Z) : Prop :=
  execute env (count_query source) = Ok (select_count t) /\
  execute env (page_query source page_size offset)
  = Ok (select_page t page_size offset).

Lemma assoc_app (k : string) (d d' : list (string * json)) :
  assoc k (d ++ d')
  = match assoc k d with
    | Some v => Some v
    | None => assoc k d'
    end.
Proof.
  induction d as [|[k' v'] d IH]; [reflexivity|].
  cbn [app assoc]. destruct (String.eqb k k'); [reflexivity | exact IH].
Qed.

Lemma assoc_dict_set (k k' : string) (v : json) (d : list (string * json)) :
  assoc k (dict_set k' v d)
  = if String.eqb k k' then Some v else assoc k d.
Proof.
  induction d as [|[k0 v0] d IH]; cbn [dict_set assoc].
  - reflexivity.
  - destruct (String.eqb_spec k' k0) as [<- | Hne]; cbn [assoc].
    + destruct (String.eqb k k'); reflexivity.
    + rewrite IH.
      destruct (String.eqb_spec k k0) as [-> | _]; [|reflexivity].
      destruct (String.eqb_spec k0 k') as [-> | _]; [contradiction | reflexivity].
Qed.

Lemma assoc_fold_dict_set (k : string) (pairs d : list (string * json)) :
  assoc k (fold_left (fun d kv => dict_set (fst kv) (snd kv) d) pairs d)
  = match assoc k (rev pairs) with
    | Some v => Some v
    | None => assoc k d
    end.
Proof.
  revert d; induction pairs as [|[k' v'] pairs IH]; intros d; [reflexivity|].
  cbn [fold_left rev fst snd]. rewrite IH, assoc_app, assoc_dict_set.
  cbn [assoc]. destruct (assoc k (rev pairs)); [reflexivity|].
  destruct (String.eqb k k'); reflexivity.
Qed.

Lemma dict_set_fresh (k : string) (v : json) (d : list (string * json)) :
  ~ In k (map fst d) -> dict_set k v d = (d ++ [(k, v)])%list.
Proof.
  induction d as [|[k' v'] d IH]; intros Hfresh; [reflexivity|].
  cbn [dict_set app]. cbn [map fst In] in Hfresh.
  destruct (String.eqb_spec k k') as [-> | _]; [tauto|].
  rewrite IH by tauto. reflexivity.
Qed.

Lemma fold_dict_set_distinct (pairs d : list (string * json)) :
  NoDup (map fst (d ++ pairs)) ->
  fold_left (fun d kv => dict_set (fst kv) (snd kv) d) pairs d = (d ++ pairs)%list.
Proof.
  revert d; induction pairs as [|[k v] pairs IH]; intros d Hnd.
  - rewrite app_nil_r. reflexivity.
  - cbn [fold_left fst snd].
    assert (Hfresh : ~ In k (map fst d)).
    { rewrite map_app in Hnd. cbn [map fst] in Hnd.
      apply NoDup_remove_2 in Hnd. intros Hin. apply Hnd.
      apply in_or_app. left. exact Hin. }
    rewrite (dict_set_fresh k v d Hfresh), IH, <- app_assoc; [reflexivity|].
    rewrite <- app_assoc. exact Hnd.
Qed.

Lemma map_fst_combine_incl {A B : Type} (l : list A) (l' : list B) (x : A) :
  In x (map fst (combine l l')) -> In x l.
Proof.
  revert l'; induction l as [|a l IH]; intros [|b l'] Hin; try destruct Hin.
  - left. assumption.
  - right. eapply IH. eassumption.
Qed.

Lemma NoDup_map_fst_combine {A B : Type} (l : list A) (l' : list B) :
  NoDup l -> NoDup (map fst (combine l l')).
Proof.
  intros Hnd. revert l'.
  induction Hnd as [|a l Ha _ IH]; intros [|b l']; try constructor.
  - intros Hin. apply Ha. eapply map_fst_combine_incl. exact Hin.
  - apply IH.
Qed.

(** X7: The row objects of a data page, [dict(zip(columns, row))]: a
    column name is bound to the cell of the last column of that name,
    cells without a column and columns without a cell are left out,
    and when the column names are distinct the object lists the
    columns in order, each with its cell. *)
Theorem row_object_binds_columns_to_cells (columns : list string) (row : list json) :
  (forall c, get_item (row_dict columns row) c
             = assoc c (rev (combine columns row))) /\
  (NoDup columns -> row_dict columns row = JDict (combine columns row)) /\
  (forall c, ~ In c (firstn (length row) columns) ->
             get_item (row_dict columns row) c = None).
Proof.
  assert (Hlookup : forall c, get_item (row_dict columns row) c
                              = assoc c (rev (combine columns row))).
  { intros c. unfold row_dict, py_dict. cbn [get_item].
    rewrite assoc_fold_dict_set.
    destruct (assoc c (rev (combine columns row))); reflexivity. }
  split; [exact Hlookup|]. split.
  - intros Hnd. unfold row_dict, py_dict. f_equal.
    apply (fold_dict_set_distinct (combine columns row) []).
    apply NoDup_map_fst_combine. exact Hnd.
  - intros c Hnot. rewrite Hlookup.
    destruct (assoc c (rev (combine columns row))) as [v|] eqn:E; [|reflexivity].
    exfalso. apply Hnot.
    assert (Hin : In c (map fst (combine columns row))).
    { clear Hnot Hlookup.
      assert (Hmem : forall d, assoc c d = Some v -> In c (map fst d)).
      { induction d as [|[k' v'] d IH]; cbn [assoc]; [discriminate|].
        destruct (String.eqb_spec c k') as [-> | _]; intros H.
        - left. reflexivity.
        - right. apply IH. exact H. }
      apply Hmem in E. rewrite map_rev in E. apply in_rev in E. exact E. }
    clear E Hlookup Hnot. revert row Hin.
    induction columns as [|a columns IH]; intros [|b row] Hin;
      try destruct Hin.
    + left. assumption.
    + right. apply IH. assumption.
Qed.

Lemma length_map_len {A B : Type} (f : A -> B) (l : list A) :
  len (map f l) = len l.
Proof. unfold len. rewrite length_map. reflexivity. Qed.

Lemma read_table_answer env source (page page_size : Z)
      (total_result result : QueryResult) (total : Z) :
  execute env (count_query source) = Ok total_result ->
  first_cell_or_zero (rows total_result) = Ok (JInt total) ->
  execute env (page_query source page_size ((page - 1) * page_size)) = Ok result ->
  read_table env source page page_size
  = Ok (JDict [("data",
                 JList (map (row_dict (column_names result)) (rows result)));
               ("columns", JList (map JString (column_names result)));
               ("count", JInt (len (rows result)));
               ("pagination",
                 pagination (JInt page) (JInt page_size) (JInt total)
                            (JBool ((page - 1) * page_size + page_size <? total)))]).
Proof.
  intros Hcount Hcell Hpage. unfold read_table.
  rewrite Hcount. cbn [bind]. rewrite Hcell. cbn [bind].
  rewrite Hpage. cbn [bind int_lt]. rewrite length_map_len. reflexivity.
Qed.

(** A second sample: a CSV file of two rows behind an engine that
    answers its count query and a few of its page queries, and a JSON
    mapping too large to be served whole. *)
Module Demo.

Definition orders_path : Path := ["srv"; "data"; "a.csv"].

Definition orders : Table :=
  {| table_columns := [("id", "BIGINT"); ("name", "VARCHAR")];
     table_rows := [[JInt 1; JString "x"]; [JInt 2; JString "y"]] |}.

Definition windows : list (Z * Z) :=
  [(1, 0); (1, 1); (1, 2); (2, 0); (2, 2); (5, 0)].

Definition run_query (q : string) : result QueryResult :=
  if String.eqb q (count_query (csv_source orders_path))
  then Ok (select_count orders)
  else
    match find (fun w => String.eqb q (page_query (csv_source orders_path)
                                                  (fst w) (snd w)))
               windows with
    | Some w => Ok (select_page orders (fst w) (snd w))
    | None => Sample.run_query q
    end.

Definition inventory_path : Path := ["srv"; "data"; "inventory.json"].

Definition inventory : json := JDict [("items", JList (repeat (JInt 0) 60))].

Definition parse (p : Path) : result json :=
  if Sample.path_eqb p inventory_path then Ok inventory else Sample.parse p.

(** A second CSV file whose name differs from [a.csv] by case only. *)
Definition upper_path : Path := ["srv"; "data"; "A.csv"].

Definition more_files : list Path := [orders_path; inventory_path; upper_path].

Definition env : Env :=
  {| path_exists := fun p => Sample.mem p more_files || path_exists Sample.env p;
     is_file := fun p => Sample.mem p more_files || is_file Sample.env p;
     is_dir := is_dir Sample.env;
     listdir := fun p => if Sample.path_eqb p Sample.data_path
                         then ("a.csv" :: "inventory.json" :: "A.csv"
                                 :: Sample.children p)
                         else Sample.children p;
     resolve := components;
     package_parent := ["srv"; "pkg"];
     load_json := parse;
     execute := run_query;
     str_value := Sample.show;
     repr_names := Sample.show_names |}.

End Demo.

Lemma large_mapping_sample :
  read_file Demo.env Demo.inventory_path 1 5
  = Return (JDict [("data", JList [Demo.inventory]);
                   ("count", JInt 1);
                   ("pagination",
                     pagination (JInt 1) (JInt 5) (JInt 1) (JBool false))]).
Proof.
  assert (Hpage : 1 <= 1) by lia.
  assert (Hp : 1 <= 5) by lia.
  assert (Hnot : forall items, Demo.inventory <> JList items)
    by (intros items; discriminate).
  exact (large_mapping_is_a_single_row
           Demo.env Demo.inventory_path Demo.inventory 1 5
           eq_refl eq_refl eq_refl Hnot Hpage Hp).
Defined.

(** X8: When the engine honours [COUNT( * )], [LIMIT] and [OFFSET] over a
    table, the data page of a CSV, TSV/TXT or Parquet file and of a
    Parquet folder carries the window of rows
    [offset, offset + page_size) as row objects over the table's column
    names, the column names themselves, the table's row count as total,
    and an envelope that satisfies the page invariant. *)
Theorem table_page_follows_limit_and_offset
        env (source : string) (t : Table) (page page_size : Z) :
  1 <= page -> 1 <= page_size ->
  answers_page_queries env source t page_size ((page - 1) * page_size) ->
  let offset := (page - 1) * page_size in
  let window := py_slice (table_rows t) offset (offset + page_size) in
  let columns := map fst (table_columns t) in
  let body :=
    JDict [("data", JList (map (row_dict columns) window));
           ("columns", JList (map JString columns));
           ("count", JInt (len window));
           ("pagination",
             pagination (JInt page) (JInt page_size)
                        (JInt (len (table_rows t)))
                        (JBool (offset + page_size <? len (table_rows t))))] in
  (forall item_path,
      table_source item_path = Some source ->
      read_file env item_path page page_size = Return body) /\
  (forall item_path,
      folder_source item_path = source ->
      read_parquet_folder env item_path page page_size = Return body) /\
  envelope_ok "data" page page_size body = true.
Proof.
  intros Hpage Hsize [Hcount Hwindow] offset window columns body.
  assert (Hoff : 0 <= offset) by (unfold offset; nia).
  assert (Htable : read_table env source page page_size = Ok body).
  { rewrite (read_table_answer env source page page_size
               (select_count t) (select_page t page_size offset)
               (len (table_rows t)) Hcount eq_refl Hwindow).
    unfold body, window, columns.
    rewrite (py_slice_window (table_rows t) offset page_size) by lia.
    reflexivity. }
  split; [|split].
  - intros item_path Hsrc.
    rewrite (read_file_table env item_path source page page_size Hsrc), Htable.
    reflexivity.
  - intros item_path <-. unfold read_parquet_folder. rewrite Htable. reflexivity.
  - assert (Hlen : len (map (row_dict columns) window)
                   = Z.min page_size (Z.max 0 (len (table_rows t) - offset))).
    { rewrite length_map_len. apply len_py_slice; lia. }
    unfold body, envelope_ok. fold offset.
    cbn [get_item assoc pagination String.eqb Ascii.eqb Bool.eqb].
    rewrite Bool.eqb_reflx, andb_true_l.
    rewrite <- length_map_len with (f := row_dict columns). rewrite Hlen.
    rewrite !Z.eqb_refl. reflexivity.
Qed.

Lemma table_page_sample :
  read_file Demo.env Demo.orders_path 1 1
  = Return (JDict [("data", JList [JDict [("id", JInt 1); ("name", JString "x")]]);
                   ("columns", JList [JString "id"; JString "name"]);
                   ("count", JInt 1);
                   ("pagination",
                     pagination (JInt 1) (JInt 1) (JInt 2) (JBool true))]).
Proof.
  assert (Hpage : 1 <= 1) by lia.
  assert (Hanswers : answers_page_queries
                       Demo.env (csv_source Demo.orders_path) Demo.orders
                       1 ((1 - 1) * 1))
    by (split; reflexivity).
  exact (proj1 (table_page_follows_limit_and_offset
                  Demo.env (csv_source Demo.orders_path) Demo.orders 1 1
                  Hpage Hpage Hanswers)
               Demo.orders_path eq_refl).
Defined.

(* ================================================================= *)
(** ** Resource keys and the routes they name *)

Lemma map_chars_length (f : ascii -> ascii) (s : string) :
  String.length (map_chars f s) = String.length s.
Proof. induction s as [|c s IH]; simpl; [reflexivity | rewrite IH; reflexivity]. Qed.

Lemma in_map_chars (f : ascii -> ascii) (s : string) (c : ascii) :
  In c (list_ascii_of_string (map_chars f s)) ->
  exists a, In a (list_ascii_of_string s) /\ c = f a.
Proof.
  induction s as [|a s IH]; simpl; [intros []|].
  intros [<- | Hin].
  - exists a. auto.
  - destruct (IH Hin) as (b & Hb & ->). exists b. auto.
Qed.

Lemma map_chars_fixed (f : ascii -> ascii) (s : string) :
  (forall c, In c (list_ascii_of_string s) -> f c = c) -> map_chars f s = s.
Proof.
  induction s as [|a s IH]; simpl; intros Hfix; [reflexivity|].
  rewrite (Hfix a (or_introl eq_refl)), IH; [reflexivity|].
  intros c Hc. apply Hfix. right. exact Hc.
Qed.

Lemma key_char_safe (c : ascii) :
  key_char c <> " "%char /\ key_char c <> "-"%char /\ is_upper (key_char c) = false.
Proof.
  destruct c as [[] [] [] [] [] [] [] []]; vm_compute;
    repeat split; discriminate.
Qed.

Lemma key_char_plain (c : ascii) :
  c <> " "%char -> c <> "-"%char -> is_upper c = false -> key_char c = c.
Proof.
  intros Hs Hh Hu. unfold key_char, lower_char. rewrite Hu.
  destruct (Ascii.eqb_spec c " ") as [-> | _]; [contradiction|].
  destruct (Ascii.eqb_spec c "-") as [-> | _]; [contradiction|].
  reflexivity.
Qed.

(** [s] holds ASCII characters only. *)
Definition is_ascii (s : string) : bool :=
  forallb (fun c => (nat_of_ascii c <? 128)%nat) (list_ascii_of_string s).

Lemma is_ascii_chars (s : string) (c : ascii) :
  is_ascii s = true -> In c (list_ascii_of_string s) -> (nat_of_ascii c < 128)%nat.
Proof.
  unfold is_ascii. rewrite forallb_forall. intros Hall Hin.
  apply Nat.ltb_lt. apply Hall. exact Hin.
Qed.

Lemma key_char_ascii (c : ascii) :
  (nat_of_ascii c < 128)%nat -> (nat_of_ascii (key_char c) < 128)%nat.
Proof.
  destruct c as [[] [] [] [] [] [] [] []]; vm_compute; intros H;
    first [exact H | lia].
Qed.

(** X9: For a name made of ASCII characters, the resource key is made
    of ASCII characters, has the length of the name and holds no space,
    no hyphen and no upper-case letter; such a name that already has
    none of these is its own key. *)
Theorem resource_key_is_normalised (s : string) :
  is_ascii s = true ->
  is_ascii (resource_key s) = true /\
  String.length (resource_key s) = String.length s /\
  (forall c, In c (list_ascii_of_string (resource_key s)) ->
             c <> " "%char /\ c <> "-"%char /\ is_upper c = false) /\
  ((forall c, In c (list_ascii_of_string s) ->
              c <> " "%char /\ c <> "-"%char /\ is_upper c = false) ->
   resource_key s = s).
Proof.
  intros Hascii. rewrite resource_key_chars.
  split; [|split; [apply map_chars_length|split]].
  - unfold is_ascii. apply forallb_forall. intros c Hc.
    apply in_map_chars in Hc. destruct Hc as (a & Ha & ->).
    apply Nat.ltb_lt. apply key_char_ascii.
    apply (is_ascii_chars s a Hascii Ha).
  - intros c Hc. apply in_map_chars in Hc. destruct Hc as (a & _ & ->).
    apply key_char_safe.
  - intros Hplain. apply map_chars_fixed. intros c Hc.
    destruct (Hplain c Hc) as (Hs & Hh & Hu). apply key_char_plain; assumption.
Qed.

Lemma resource_key_is_normalised_sample :
  String.length (resource_key "Sales-2024 Q1.csv") = 17%nat.
Proof.
  exact (proj1 (proj2 (resource_key_is_normalised "Sales-2024 Q1.csv" eq_refl))).
Defined.

Lemma resource_key_through (f : ascii -> ascii) (s : string) :
  (forall c, key_char (f c) = key_char c) ->
  resource_key (map_chars f s) = resource_key s.
Proof.
  intros Hf. rewrite !resource_key_chars, map_chars_compose.
  apply map_chars_ext. exact Hf.
Qed.

(** X10: Lower-casing a name, or replacing all its spaces, hyphens or
    underscores by another of these three characters, does not change
    its resource key: such names collide. *)
Theorem resource_key_merges_case_space_hyphen (s : string) :
  resource_key (lower s) = resource_key s /\
  resource_key (replace " " "-" s) = resource_key s /\
  resource_key (replace "-" " " s) = resource_key s /\
  resource_key (replace " " "_" s) = resource_key s /\
  resource_key (replace "-" "_" s) = resource_key s /\
  resource_key (replace "_" "-" s) = resource_key s.
Proof.
  rewrite lower_map_chars, !replace_single_char.
  repeat split; apply resource_key_through; intros c;
    destruct c as [[] [] [] [] [] [] [] []]; vm_compute; reflexivity.
Qed.

(** X11: Two catalog items of the same kind whose names have the same
    resource key are registered under the same URL paths. *)
Theorem colliding_names_share_route_paths
        env data_path include_schema_cols last_name (a b : Path) :
  classify env a = classify env b ->
  resource_key (name a) = resource_key (name b) ->
  map fst (item_routes env data_path include_schema_cols last_name a)
  = map fst (item_routes env data_path include_schema_cols last_name b).
Proof.
  intros Hkind Hkey. rewrite !item_routes_by_kind, <- Hkind.
  unfold kind_routes, item_name_of. rewrite Hkey.
  destruct (classify env a), include_schema_cols; reflexivity.
Qed.

Lemma colliding_names_sample :
  map fst (item_routes Demo.env Sample.data_path true "" ["srv"; "data"; "a.csv"])
  = map fst (item_routes Demo.env Sample.data_path true "" ["srv"; "data"; "A.csv"]).
Proof.
  exact (colliding_names_share_route_paths
           Demo.env Sample.data_path true ""
           ["srv"; "data"; "a.csv"] ["srv"; "data"; "A.csv"] eq_refl eq_refl).
Defined.

(* ================================================================= *)
(** ** The routes of [_create_endpoints] *)

Lemma in_supported_suffixes (s : string) :
  existsb (String.eqb s) supported_suffixes = true <-> In s supported_suffixes.
Proof.
  rewrite existsb_exists. split.
  - intros (x & Hin & Heq). apply String.eqb_eq in Heq. subst x. exact Hin.
  - intros Hin. exists s. split; [exact Hin | apply String.eqb_refl].
Qed.

Lemma create_endpoints_cases
        env data_path (items : list Path) (include_schema_cols : bool)
        (path : string) (h : Handler) :
  In (path, h) (_create_endpoints env [] data_path items include_schema_cols) ->
  exists item,
    In item items /\
    ((h = ReadFile item /\
      path = "/data/" ++ item_name_of item /\
      is_file env item = true /\ In (suffix item) supported_suffixes)
     \/
     (h = GetColumnInfo item /\
      path = "/data/" ++ item_name_of item ++ "_columnnames" /\
      include_schema_cols = true /\
      is_file env item = true /\ In (suffix item) supported_suffixes)
     \/
     (h = ReadParquetFolder item /\
      path = "/data/" ++ item_name_of item /\
      is_file env item = false /\ _has_parquet_files env item = true)
     \/
     (h = GetParquetFolderColumnInfo item /\
      path = "/data/" ++ item_name_of item ++ "_columnnames" /\
      include_schema_cols = true /\
      is_file env item = false /\ _has_parquet_files env item = true)
     \/
     (h = ReadDirectory data_path (item_name_of (last items [])) item /\
      path = "/data/" ++ item_name_of item /\
      is_file env item = false /\ is_dir env item = true /\
      _has_parquet_files env item = false)).
Proof.
  unfold _create_endpoints. cbn [app]. intros Hin.
  apply in_flat_map in Hin. destruct Hin as (item & Hitem & Hroute).
  exists item. split; [exact Hitem|].
  unfold item_routes in Hroute.
  destruct (is_file env item) eqn:Hfile.
  - destruct (existsb (String.eqb (suffix item)) supported_suffixes) eqn:Hsuf;
      [|destruct Hroute].
    apply in_supported_suffixes in Hsuf.
    destruct Hroute as [[= <- <-] | Hroute]; [left; auto|].
    destruct include_schema_cols; [|destruct Hroute].
    destruct Hroute as [[= <- <-] | []]. right; left. auto.
  - destruct (is_dir env item) eqn:Hdir; [|destruct Hroute].
    destruct (_has_parquet_files env item) eqn:Hpq.
    + destruct Hroute as [[= <- <-] | Hroute]; [right; right; left; auto|].
      destruct include_schema_cols; [|destruct Hroute].
      destruct Hroute as [[= <- <-] | []]. right; right; right; left. auto.
    + destruct Hroute as [[= <- <-] | []]. right; right; right; right. auto.
Qed.

(** X12: What [_create_endpoints] registers on an empty application: every
    route belongs to an item of the list and lies under [/data/]
    followed by the item's resource key.  A file handler stands for a
    regular file with one of the five extensions; a folder handler for
    a directory holding a Parquet file; a listing handler for any other
    directory, and it carries the resource key of the last item of the
    list.  Schema routes exist only when [include_schema_cols] is set,
    and never for a plain directory. *)
Theorem registered_routes_shape
        env data_path (items : list Path) (include_schema_cols : bool)
        (path : string) (h : Handler) :
  In (path, h) (_create_endpoints env [] data_path items include_schema_cols) ->
  exists item,
    In item items /\
    ((h = ReadFile item /\
      path = "/data/" ++ item_name_of item /\
      is_file env item = true /\ In (suffix item) supported_suffixes)
     \/
     (h = GetColumnInfo item /\
      path = "/data/" ++ item_name_of item ++ "_columnnames" /\
      include_schema_cols = true /\
      is_file env item = true /\ In (suffix item) supported_suffixes)
     \/
     (h = ReadParquetFolder item /\
      path = "/data/" ++ item_name_of item /\
      is_file env item = false /\ _has_parquet_files env item = true)
     \/
     (h = GetParquetFolderColumnInfo item /\
      path = "/data/" ++ item_name_of item ++ "_columnnames" /\
      include_schema_cols = true /\
      is_file env item = false /\ _has_parquet_files env item = true)
     \/
     (h = ReadDirectory data_path (item_name_of (last items [])) item /\
      path = "/data/" ++ item_name_of item /\
      is_file env item = false /\ is_dir env item = true /\
      _has_parquet_files env item = false)).
Proof. apply create_endpoints_cases. Qed.

Lemma registered_routes_sample :
  In ("/data/docs",
      ReadDirectory Sample.data_path "users.json" ["srv"; "data"; "docs"])
     (_create_endpoints Sample.env [] Sample.data_path
                        [["srv"; "data"; "docs"]; ["srv"; "data"; "users.json"]]
                        true) /\
  exists item,
    In item [["srv"; "data"; "docs"]; ["srv"; "data"; "users.json"]] /\
    "/data/docs" = "/data/" ++ item_name_of item.
Proof.
  assert (Hin : In ("/data/docs",
                    ReadDirectory Sample.data_path "users.json"
                                  ["srv"; "data"; "docs"])
                   (_create_endpoints
                      Sample.env [] Sample.data_path
                      [["srv"; "data"; "docs"]; ["srv"; "data"; "users.json"]]
                      true))
    by (left; reflexivity).
  split; [exact Hin|].
  destruct (registered_routes_shape _ _ _ _ _ _ Hin)
    as (item & Hitem & [H | [H | [H | [H | H]]]]);
    exists item; (split; [exact Hitem|]);
    first [ exact (proj1 (proj2 H)) | destruct H as [H _]; discriminate H ].
Defined.

Lemma read_json_answers_with_data env item_path (page page_size : Z) (body : json) :
  read_json env item_path page page_size = Ok body ->
  exists data rest, body = JDict (("data", data) :: rest).
Proof.
  unfold read_json. intros H. apply bind_ok in H.
  destruct H as (json_data & _ & H).
  destruct (_count_json_items json_data) as [total_count max_nested].
  destruct ((total_count <=? 100) && (max_nested <=? 100));
    injection H as <-; eauto.
Qed.

Lemma read_table_answers_with_data env source (page page_size : Z) (body : json) :
  read_table env source page page_size = Ok body ->
  exists data rest, body = JDict (("data", data) :: rest).
Proof.
  unfold read_table. intros H.
  apply bind_ok in H. destruct H as (total_result & _ & H).
  apply bind_ok in H. destruct H as (total_count & _ & H).
  apply bind_ok in H. destruct H as (result & _ & H).
  apply bind_ok in H. destruct H as (has_next & _ & H).
  injection H as <-. eauto.
Qed.

(** X13: [read_file] and [get_column_info] choose their branch by the
    suffix of the [item_path] they are called with, be it the one they
    were registered with or another one supplied with the request.
    With one of the five suffixes, every body [read_file] returns is an
    object whose first key is [data], and the schema handler finds its
    query.  With any other suffix [read_file] returns the
    [Unsupported file format] object without raising, and
    [get_column_info] ends with status 500 and
    [Unsupported file type: ] followed by the suffix.  The [item_path]
    a handler is registered with always has one of the five
    suffixes. *)
Theorem file_handlers_answer_by_suffix env (item_path : Path) (page page_size : Z) :
  (In (suffix item_path) supported_suffixes ->
   (forall body,
       read_file env item_path page page_size = Return body ->
       exists data rest, body = JDict (("data", data) :: rest)) /\
   exists query, schema_query item_path = Ok query) /\
  (~ In (suffix item_path) supported_suffixes ->
   read_file env item_path page page_size
   = Return (JDict [("error", JString "Unsupported file format")]) /\
   get_column_info env item_path page page_size
   = HTTPException 500 ("Error getting column info: "
                          ++ "Unsupported file type: " ++ suffix item_path)) /\
  (forall data_path items include_schema_cols path,
      In (path, ReadFile item_path)
         (_create_endpoints env [] data_path items include_schema_cols)
      \/ In (path, GetColumnInfo item_path)
            (_create_endpoints env [] data_path items include_schema_cols) ->
      In (suffix item_path) supported_suffixes).
Proof.
  split; [|split].
  - intros Hsuf. split.
    + intros body Hret. unfold read_file in Hret. apply guarded_return in Hret.
      unfold supported_suffixes in Hsuf. cbn [In] in Hsuf.
      destruct Hsuf as [Hs | [Hs | [Hs | [Hs | [Hs | []]]]]];
        rewrite <- Hs in Hret;
        cbn [String.eqb Ascii.eqb Bool.eqb existsb orb] in Hret;
        first [ eapply read_json_answers_with_data; eassumption
              | eapply read_table_answers_with_data; eassumption ].
    + unfold schema_query. unfold supported_suffixes in Hsuf. cbn [In] in Hsuf.
      destruct Hsuf as [<- | [<- | [<- | [<- | [<- | []]]]]]; cbn; eauto.
  - intros Hnot. unfold read_file, get_column_info, schema_query.
    revert Hnot. unfold supported_suffixes.
    generalize (read_json env item_path page page_size)
               (read_table env (csv_source item_path) page page_size)
               (read_table env (tsv_source item_path) page page_size)
               (read_table env (parquet_source item_path) page page_size).
    generalize (suffix item_path) as s. intros s rj rc rt rp Hnot.
    cbn [In existsb] in *.
    by_suffix s; try (exfalso; apply Hnot; tauto).
    cbn [orb]. split; reflexivity.
  - intros data_path items include_schema_cols path [Hin | Hin];
      apply create_endpoints_cases in Hin;
      destruct Hin as (item' & _ & [H | [H | [H | [H | H]]]]);
      destruct H as (Heq & H); try discriminate;
      injection Heq as <-; tauto.
Qed.

Lemma file_handlers_answer_by_suffix_sample :
  read_file Sample.env ["srv"; "data"; "NOTES.TXT"] 1 5
  = Return (JDict [("error", JString "Unsupported file format")]).
Proof.
  apply (proj1 (proj2 (file_handlers_answer_by_suffix
                         Sample.env ["srv"; "data"; "NOTES.TXT"] 1 5))).
  vm_compute. intuition discriminate.
Defined.

(* ================================================================= *)
(** ** Directory listings *)

(** One entry of the listing built by [read_directory]. *)
Definition listing_entry (env : Env) (data_path file_item : Path) : json :=
  JDict [("name", JString (name file_item));
         ("type", JString (if is_file env file_item then "file" else "directory"));
         ("path", JString (String.concat "/" (skipn (length data_path) file_item)))].

Lemma relative_to_below (base rest : Path) :
  rest <> [] ->
  relative_to (base ++ rest)%list base = Ok (String.concat "/" rest).
Proof.
  intros Hne. induction base as [|b base IH]; cbn [app].
  - destruct rest; [contradiction | reflexivity].
  - cbn [relative_to]. rewrite String.eqb_refl. exact IH.
Qed.

Lemma skipn_length_app {A : Type} (l l' : list A) :
  skipn (length l) (l ++ l')%list = l'.
Proof. induction l as [|a l IH]; [reflexivity | exact IH]. Qed.

Lemma for_each_all_ok {A B : Type} (f : A -> result B) (g : A -> B) (l : list A) :
  (forall a, In a l -> f a = Ok (g a)) -> for_each f l = Ok (map g l).
Proof.
  induction l as [|a l IH]; intros Hok; [reflexivity|].
  cbn [for_each map]. rewrite (Hok a (or_introl eq_refl)). cbn [bind].
  rewrite IH; [reflexivity|]. intros b Hb. apply Hok. right. exact Hb.
Qed.

Lemma sorted_children (env : Env) (item_path f : Path) :
  In f (sorted (iterdir env item_path)) ->
  exists n, In n (listdir env item_path) /\ f = (item_path ++ [n])%list.
Proof.
  intros Hf. apply (Permutation_in _ (sorted_perm _)) in Hf.
  unfold iterdir in Hf. apply in_map_iff in Hf.
  destruct Hf as (n & <- & Hn). eauto.
Qed.

Lemma read_directory_below env (data_path rel : Path) (item_name : string) :
  read_directory env data_path item_name (data_path ++ rel)%list
  = Return (JDict [("directory", JString item_name);
                   ("contents",
                     JList (map (listing_entry env data_path)
                                (sorted (iterdir env (data_path ++ rel)%list))))]).
Proof.
  unfold read_directory.
  rewrite (for_each_all_ok _ (listing_entry env data_path)).
  - reflexivity.
  - intros f Hf. destruct (sorted_children env _ f Hf) as (n & _ & ->).
    rewrite <- app_assoc.
    rewrite relative_to_below by (destruct rel; discriminate).
    cbn [bind]. unfold listing_entry. rewrite skipn_length_app. reflexivity.
Qed.

(** X14: Provided the directory can be listed (the environment takes
    [iterdir] and [is_file] to answer rather than raise), the listing
    of a directory that lies at or below the data path is built from
    what [iterdir] returns: one entry per direct child, in the order of
    the children's names, each with its name, its type and its path
    relative to the data path; [relative_to] does not raise for these
    children. *)
Theorem directory_listing_of_a_catalog_folder
        env (data_path rel : Path) (item_name : string) :
  let item_path := (data_path ++ rel)%list in
  let children := sorted (iterdir env item_path) in
  read_directory env data_path item_name item_path
  = Return (JDict [("directory", JString item_name);
                   ("contents",
                     JList (map (listing_entry env data_path) children))]) /\
  Permutation (map name children) (listdir env item_path) /\
  StronglySorted (fun n m => String.leb n m = true) (map name children) /\
  (forall child,
      In child (listdir env item_path) ->
      In (JDict [("name", JString child);
                 ("type", JString (if is_file env (item_path ++ [child])%list
                                   then "file" else "directory"));
                 ("path", JString (String.concat "/" (rel ++ [child])%list))])
         (map (listing_entry env data_path) children)).
Proof.
  intros item_path children.
  assert (Hchild : forall f, In f children ->
                             exists n, In n (listdir env item_path)
                                       /\ f = (item_path ++ [n])%list)
    by (apply sorted_children).
  split; [|split; [|split]].
  - apply read_directory_below.
  - apply (perm_trans (l' := map name (iterdir env item_path))).
    + apply Permutation_map. apply sorted_perm.
    + unfold iterdir. rewrite map_map.
      rewrite (map_ext _ (fun n => n) (name_of_child item_path)), map_id.
      apply Permutation_refl.
  - assert (Hs : StronglySorted
                   (fun p q => String.leb (name p) (name q) = true) children).
    { apply (strongly_sorted_on path_le); [|apply sorted_strongly].
      intros x y Hx Hy Hle.
      destruct (Hchild x Hx) as (n & _ & ->).
      destruct (Hchild y Hy) as (m & _ & ->).
      rewrite !name_of_child, <- (path_leb_siblings item_path). exact Hle. }
    clear Hchild. induction Hs as [|x l Hl IH Hx]; cbn [map]; constructor.
    + exact IH.
    + rewrite Forall_forall in *. intros n Hn. apply in_map_iff in Hn.
      destruct Hn as (y & <- & Hy). apply Hx. exact Hy.
  - intros child Hin. apply in_map_iff.
    exists (item_path ++ [child])%list. split.
    + unfold listing_entry, item_path. rewrite name_of_child.
      rewrite <- app_assoc, skipn_length_app. reflexivity.
    + apply (Permutation_in _ (Permutation_sym (sorted_perm _))).
      unfold iterdir.
      apply (in_map (fun n => (item_path ++ [n])%list)). exact Hin.
Qed.

(** X15: The listing handler registered for a plain directory answers with
    the resource key of the last item of the catalog in its
    [directory] field, whichever directory it lists: [read_directory]
    reads [item_name] when it is called, after the loop of
    [_create_endpoints] has ended. *)
Theorem listing_names_the_last_catalog_item
        env (data_path rel : Path) (items : list Path)
        (include_schema_cols : bool) (path nm : string) (page page_size : Z) :
  In (path, ReadDirectory data_path nm (data_path ++ rel)%list)
     (_create_endpoints env [] data_path items include_schema_cols) ->
  nm = item_name_of (last items []) /\
  path = "/data/" ++ item_name_of (data_path ++ rel)%list /\
  exists contents,
    handle env (ReadDirectory data_path nm (data_path ++ rel)%list)
           page page_size
    = Return (JDict [("directory", JString (item_name_of (last items [])));
                     ("contents", contents)]).
Proof.
  intros Hin. apply create_endpoints_cases in Hin.
  destruct Hin as (item & _ & [H | [H | [H | [H | H]]]]);
    destruct H as (Heq & H); try discriminate.
  injection Heq as -> <-. destruct H as (-> & _).
  split; [reflexivity|]. split; [reflexivity|].
  cbn [handle]. rewrite read_directory_below. eexists. reflexivity.
Qed.

Lemma listing_names_sample :
  exists contents,
    handle Sample.env
           (ReadDirectory Sample.data_path "users.json" ["srv"; "data"; "docs"])
           1 5
    = Return (JDict [("directory", JString "users.json");
                     ("contents", contents)]).
Proof.
  assert (Hin : In ("/data/docs",
                    ReadDirectory Sample.data_path "users.json"
                                  (Sample.data_path ++ ["docs"])%list)
                   (_create_endpoints
                      Sample.env [] Sample.data_path
                      [["srv"; "data"; "docs"]; ["srv"; "data"; "users.json"]]
                      true))
    by (left; reflexivity).
  exact (proj2 (proj2 (listing_names_the_last_catalog_item
                         Sample.env Sample.data_path ["docs"]
                         [["srv"; "data"; "docs"]; ["srv"; "data"; "users.json"]]
                         true "/data/docs" "users.json" 1 5 Hin))).
Defined.

(* ================================================================= *)
(** ** [run_fastapi] and the root endpoint *)

Lemma get_data_path_ok env path_data data_path :
  _get_data_path env path_data = Ok data_path ->
  path_exists env data_path = true /\ is_dir env data_path = true.
Proof.
  unfold _get_data_path.
  set (resolved_path := if String.eqb path_data "duckdbfastapi_datasample"
                        then _ else _).
  destruct (path_exists env resolved_path) eqn:Hex; cbn [negb]; [|discriminate].
  destruct (is_dir env resolved_path) eqn:Hdir; cbn [negb]; [|discriminate].
  intros [= <-]. auto.
Qed.

Lemma port_in_range (port : Z) :
  (port <? 1) || (port >? 65535) = false <-> 1 <= port <= 65535.
Proof.
  rewrite orb_false_iff, Z.ltb_ge, Z.gtb_ltb, Z.ltb_ge. lia.
Qed.

(** X16: Whenever [run_fastapi] reaches the server, the port lies in
    1..65535, the host is not empty, the data path has resolved to an
    existing directory and the catalog is not empty; the routes it has
    registered are then those of the catalog, schema routes included,
    followed by [/health] and [/]. *)
Theorem run_fastapi_serves_the_catalog
        env (path_data : string) (specific_items : option (list string))
        (port : Z) (host : string) (app : list Route) :
  run_fastapi env path_data specific_items port host = Ok app ->
  1 <= port <= 65535 /\ host <> "" /\
  exists data_path,
    _get_data_path env path_data = Ok data_path /\
    path_exists env data_path = true /\ is_dir env data_path = true /\
    _get_items_to_process env data_path specific_items <> [] /\
    app = (_create_endpoints
             env [] data_path
             (_get_items_to_process env data_path specific_items) true
           ++ [("/health", HealthCheck);
               ("/", Root data_path
                          (_get_items_to_process env data_path specific_items))])%list.
Proof.
  unfold run_fastapi.
  destruct ((port <? 1) || (port >? 65535)) eqn:Hport; [discriminate|].
  apply port_in_range in Hport.
  destruct (String.eqb_spec host "") as [-> | Hhost]; [discriminate|].
  destruct (_get_data_path env path_data) as [data_path|e] eqn:Hpath;
    [|discriminate].
  destruct (get_data_path_ok env path_data data_path Hpath) as [Hex Hdir].
  destruct (_get_items_to_process env data_path specific_items)
    as [|item items] eqn:Hitems; [discriminate|].
  intros [= <-]. split; [exact Hport|]. split; [exact Hhost|].
  exists data_path. rewrite Hitems.
  repeat split; try assumption; try reflexivity. discriminate.
Qed.

Lemma run_fastapi_sample :
  1 <= 8000 <= 65535 /\ "127.0.0.1" <> "" /\
  exists data_path,
    _get_data_path Sample.env "/srv/data" = Ok data_path /\
    path_exists Sample.env data_path = true /\
    is_dir Sample.env data_path = true /\
    _get_items_to_process Sample.env data_path (Some ["docs"]) <> [] /\
    [("/data/docs", ReadDirectory Sample.data_path "docs" ["srv"; "data"; "docs"]);
     ("/health", HealthCheck);
     ("/", Root Sample.data_path [["srv"; "data"; "docs"]])]
    = (_create_endpoints
         Sample.env [] data_path
         (_get_items_to_process Sample.env data_path (Some ["docs"])) true
       ++ [("/health", HealthCheck);
           ("/", Root data_path
                      (_get_items_to_process Sample.env data_path
                                             (Some ["docs"])))])%list.
Proof.
  exact (run_fastapi_serves_the_catalog
           Sample.env "/srv/data" (Some ["docs"]) 8000 "127.0.0.1"
           [("/data/docs",
              ReadDirectory Sample.data_path "docs" ["srv"; "data"; "docs"]);
            ("/health", HealthCheck);
            ("/", Root Sample.data_path [["srv"; "data"; "docs"]])]
           eq_refl).
Defined.

(** X17: [run_fastapi] checks its arguments in a fixed order: a port
    outside 1..65535 is reported first and an empty host next, both
    before the data path is looked at; then a data path that is found
    not to exist, or not to be a directory, is reported as a
    [ValueError] whose message is that of [_get_data_path] under the
    prefix [Invalid path_data: ]. *)
Theorem run_fastapi_reports_bad_arguments_in_order
        env (path_data : string) (specific_items : option (list string))
        (port : Z) (host : string) :
  let resolved_path :=
    if String.eqb path_data "duckdbfastapi_datasample"
    then joinpath (package_parent env) "datasample"
    else resolve env path_data in
  (port < 1 \/ 65535 < port ->
   run_fastapi env path_data specific_items port host
   = Raise (ValueError "Port must be an integer between 1 and 65535")) /\
  (1 <= port <= 65535 -> host = "" ->
   run_fastapi env path_data specific_items port host
   = Raise (ValueError "Host must be a non-empty string")) /\
  (1 <= port <= 65535 -> host <> "" ->
   path_exists env resolved_path = false ->
   run_fastapi env path_data specific_items port host
   = Raise (ValueError ("Invalid path_data: " ++ "Data path does not exist: "
                          ++ str_path resolved_path))) /\
  (1 <= port <= 65535 -> host <> "" ->
   path_exists env resolved_path = true -> is_dir env resolved_path = false ->
   run_fastapi env path_data specific_items port host
   = Raise (ValueError ("Invalid path_data: " ++ "Data path must be a directory: "
                          ++ str_path resolved_path))).
Proof.
  intros resolved_path. unfold run_fastapi. repeat split.
  - intros Hport.
    destruct ((port <? 1) || (port >? 65535)) eqn:E; [reflexivity|].
    apply port_in_range in E. lia.
  - intros Hport ->. apply port_in_range in Hport. rewrite Hport. reflexivity.
  - intros Hport Hhost Hex. apply port_in_range in Hport. rewrite Hport.
    destruct (String.eqb_spec host "") as [-> | _]; [contradiction|].
    unfold _get_data_path. fold resolved_path. rewrite Hex. reflexivity.
  - intros Hport Hhost Hex Hdir. apply port_in_range in Hport. rewrite Hport.
    destruct (String.eqb_spec host "") as [-> | _]; [contradiction|].
    unfold _get_data_path. fold resolved_path. rewrite Hex, Hdir. reflexivity.
Qed.

Lemma run_fastapi_bad_arguments_sample :
  run_fastapi Sample.env "/srv/data/users.json" None 8000 "127.0.0.1"
  = Raise (ValueError
             "Invalid path_data: Data path must be a directory: /srv/data/users.json").
Proof.
  assert (Hport : 1 <= 8000 <= 65535) by lia.
  assert (Hhost : "127.0.0.1" <> "") by discriminate.
  exact (proj2 (proj2 (proj2 (run_fastapi_reports_bad_arguments_in_order
                                Sample.env "/srv/data/users.json" None
                                8000 "127.0.0.1")))
               Hport Hhost eq_refl eq_refl).
Defined.

Lemma flat_map_all_nil {A B : Type} (f : A -> list B) (l : list A) :
  (forall a, In a l -> f a = []) -> flat_map f l = [].
Proof.
  induction l as [|a l IH]; intros Hnil; [reflexivity|].
  cbn [flat_map]. rewrite (Hnil a (or_introl eq_refl)), IH; [reflexivity|].
  intros b Hb. apply Hnil. right. exact Hb.
Qed.

(** X18: A catalog that is not empty but holds only unsupported entries
    (files with other extensions, entries that are neither file nor
    directory) is accepted: [run_fastapi] raises nothing and serves
    [/health] and [/] alone. *)
Theorem unsupported_catalog_serves_no_data
        env (path_data : string) (specific_items : option (list string))
        (port : Z) (host : string) (data_path : Path) :
  1 <= port <= 65535 -> host <> "" ->
  _get_data_path env path_data = Ok data_path ->
  _get_items_to_process env data_path specific_items <> [] ->
  (forall item, In item (_get_items_to_process env data_path specific_items) ->
                classify env item = Unsupported) ->
  run_fastapi env path_data specific_items port host
  = Ok [("/health", HealthCheck);
        ("/", Root data_path (_get_items_to_process env data_path specific_items))].
Proof.
  intros Hport Hhost Hpath Hitems Hunsup. unfold run_fastapi.
  apply port_in_range in Hport. rewrite Hport.
  destruct (String.eqb_spec host "") as [-> | _]; [contradiction|].
  rewrite Hpath.
  destruct (_get_items_to_process env data_path specific_items)
    as [|item items] eqn:E; [contradiction|].
  unfold _create_endpoints. cbn [app].
  rewrite flat_map_all_nil; [reflexivity|].
  intros a Ha. apply unsupported_iff_no_route. apply Hunsup. exact Ha.
Qed.

Lemma unsupported_catalog_sample :
  run_fastapi Sample.env "/srv/data" (Some ["NOTES.TXT"; "run.sock"])
              8000 "127.0.0.1"
  = Ok [("/health", HealthCheck);
        ("/", Root Sample.data_path
                   [["srv"; "data"; "NOTES.TXT"]; ["srv"; "data"; "run.sock"]])].
Proof.
  assert (Hport : 1 <= 8000 <= 65535) by lia.
  assert (Hhost : "127.0.0.1" <> "") by discriminate.
  assert (Hitems : _get_items_to_process
                     Sample.env Sample.data_path
                     (Some ["NOTES.TXT"; "run.sock"]) <> [])
    by discriminate.
  apply (unsupported_catalog_serves_no_data
           Sample.env "/srv/data" (Some ["NOTES.TXT"; "run.sock"])
           8000 "127.0.0.1" Sample.data_path Hport Hhost eq_refl Hitems).
  intros item [<- | [<- | []]]; reflexivity.
Defined.

Lemma append_length (s t : string) :
  String.length (s ++ t) = (String.length s + String.length t)%nat.
Proof. induction s as [|c s IH]; simpl; [reflexivity | rewrite IH; reflexivity]. Qed.

Lemma append_cancel_l (s a b : string) : s ++ a = s ++ b -> a = b.
Proof.
  induction s as [|c s IH]; simpl; intros H; [exact H|].
  injection H as H. apply IH. exact H.
Qed.

(** X19: The root endpoint advertises [/data/] followed by the raw name of
    every catalog item.  For an item that has routes, that path is one
    of them exactly when the name is its own resource key; otherwise
    the advertised endpoint is not registered. *)
Theorem root_advertises_raw_names
        env data_path (items : list Path) (page page_size : Z)
        (include_schema_cols : bool) (last_name : string) (item : Path) :
  (exists body,
      handle env (Root data_path items) page page_size = Return body /\
      get_item body "endpoints"
      = Some (JList (map (fun i => JString ("/data/" ++ name i)) items))) /\
  (classify env item <> Unsupported ->
   (In ("/data/" ++ name item)
       (map fst (item_routes env data_path include_schema_cols last_name item))
    <-> resource_key (name item) = name item)).
Proof.
  split; [eexists; split; reflexivity|].
  intros Hkind. rewrite item_routes_by_kind.
  assert (Hlen : String.length (item_name_of item) = String.length (name item))
    by (unfold item_name_of, resource_key; rewrite !replace_single_char,
          lower_map_chars, !map_chars_length; reflexivity).
  assert (Hdata : "/data/" ++ name item = "/data/" ++ item_name_of item
                  <-> resource_key (name item) = name item).
  { unfold item_name_of. split.
    - intros H. apply append_cancel_l in H. congruence.
    - intros ->. reflexivity. }
  assert (Hschema : "/data/" ++ name item
                    <> "/data/" ++ item_name_of item ++ "_columnnames").
  { intros H. apply append_cancel_l in H.
    apply (f_equal String.length) in H. rewrite append_length, Hlen in H.
    simpl in H. lia. }
  assert (Hone : forall h : Handler,
             In ("/data/" ++ name item)
                (map fst [("/data/" ++ item_name_of item, h)])
             <-> resource_key (name item) = name item).
  { intros h. cbn [map fst In]. split.
    - intros [H | []]. apply Hdata. symmetry. exact H.
    - intros H. left. symmetry. apply Hdata. exact H. }
  assert (Htwo : forall h h' : Handler,
             In ("/data/" ++ name item)
                (map fst [("/data/" ++ item_name_of item, h);
                          ("/data/" ++ item_name_of item ++ "_columnnames", h')])
             <-> resource_key (name item) = name item).
  { intros h h'. cbn [map fst In]. split.
    - intros [H | [H | []]].
      + apply Hdata. symmetry. exact H.
      + exfalso. apply Hschema. symmetry. exact H.
    - intros H. left. symmetry. apply Hdata. exact H. }
  unfold kind_routes.
  destruct (classify env item), include_schema_cols; try contradiction;
    first [apply Htwo | apply Hone].
Qed.

Lemma root_advertises_sample :
  ~ In ("/data/" ++ name ["srv"; "data"; "Sales-2024 Q1.csv"])
       (map fst (item_routes Sample.env Sample.data_path true ""
                             ["srv"; "data"; "Sales-2024 Q1.csv"])).
Proof.
  intros Hin.
  assert (Hkind : classify Sample.env ["srv"; "data"; "Sales-2024 Q1.csv"]
                  <> Unsupported) by discriminate.
  apply (proj2 (root_advertises_raw_names
                  Sample.env Sample.data_path [] 1 5 true ""
                  ["srv"; "data"; "Sales-2024 Q1.csv"]) Hkind) in Hin.
  discriminate Hin.
Defined.

(* ================================================================= *)
(** ** Explicit names *)






(** X21: An explicit name is not confined to the data source: a name that
    starts with the separator is taken as an absolute path, whatever
    the data path, and enters the catalog when that path exists; the
    empty name and the single dot stand for the data path itself. *)
Theorem explicit_names_can_leave_the_data_source
        env (data_path : Path) (names : list string) (n : string) :
  In n names ->
  (prefix "/" n = true ->
   joinpath data_path n = components n /\
   (path_exists env (components n) = true ->
    In (components n) (_get_items_to_process env data_path (Some names)))) /\
  (n = "" \/ n = "." ->
   joinpath data_path n = data_path /\
   (path_exists env data_path = true ->
    In data_path (_get_items_to_process env data_path (Some names)))).
Proof.
  intros Hin.
  assert (Hkept : forall p, joinpath data_path n = p ->
                            path_exists env p = true ->
                            In p (_get_items_to_process env data_path (Some names))).
  { intros p Hp Hex. destruct names as [|n0 names]; [destruct Hin|].
    cbn [_get_items_to_process]. apply filter_In. split; [|exact Hex].
    rewrite <- Hp. apply in_map. exact Hin. }
  split.
  - intros Habs.
    assert (Hjoin : joinpath data_path n = components n)
      by (unfold joinpath; rewrite Habs; reflexivity).
    split; [exact Hjoin | apply Hkept; exact Hjoin].
  - intros Hself.
    assert (Hjoin : joinpath data_path n = data_path)
      by (destruct Hself as [-> | ->]; unfold joinpath; cbn; apply app_nil_r).
    split; [exact Hjoin | apply Hkept; exact Hjoin].
Qed.

Lemma explicit_absolute_name_sample :
  In ["srv"] (_get_items_to_process Sample.env Sample.data_path (Some ["/srv"])).
Proof.
  assert (Hin : In "/srv" ["/srv"]) by (left; reflexivity).
  apply (proj2 (proj1 (explicit_names_can_leave_the_data_source
                         Sample.env Sample.data_path ["/srv"] "/srv" Hin)
                      eq_refl)).
  reflexivity.
Defined.

(* ================================================================= *)
(** ** More on schema pages *)

Lemma get_column_info_of_table env item_path query (t : Table) (page page_size : Z) :
  schema_query item_path = Ok query ->
  answers_schema_queries env query (file_example_query query) t ->
  get_column_info env item_path page page_size
  = Return (columns_page (map (descriptor env (first_row_cell t)) (table_columns t))
                         page page_size).
Proof.
  intros Hquery [Hprobe Hexamples].
  unfold get_column_info. rewrite Hquery. cbn [bind].
  rewrite Hprobe. cbn [bind iter_description select_all_limit_1 description].
  rewrite (columns_loop_of_table env (file_example_query query) t
             (table_columns t)); [reflexivity | auto | exact Hexamples].
Qed.

Lemma get_parquet_folder_column_info_of_table
      env item_path (t : Table) (page page_size : Z) :
  answers_schema_queries env (folder_schema_query item_path)
                         (folder_example_query item_path) t ->
  get_parquet_folder_column_info env item_path page page_size
  = Return (columns_page (map (descriptor env (first_row_cell t)) (table_columns t))
                         page page_size).
Proof.
  intros [Hprobe Hexamples].
  unfold get_parquet_folder_column_info.
  rewrite Hprobe. cbn [bind iter_description select_all_limit_1 description].
  rewrite (columns_loop_of_table env (folder_example_query item_path) t
             (table_columns t)); [reflexivity | auto | exact Hexamples].
Qed.

(** X22: The schema of a source without rows is still served: every column
    of the table gets a descriptor, and every example value is the
    string NULL. *)
Theorem schema_of_an_empty_table_reports_null
        env item_path query (t : Table) (page page_size : Z) :
  schema_query item_path = Ok query ->
  answers_schema_queries env query (file_example_query query) t ->
  table_rows t = [] ->
  get_column_info env item_path page page_size
  = Return (columns_page
              (map (fun desc =>
                      JDict [("column_name", JString (fst desc));
                             ("data_type",
                               JString (if String.eqb (snd desc) ""
                                        then "unknown" else snd desc));
                             ("example_value", JString "NULL")])
                   (table_columns t))
              page page_size).
Proof.
  intros Hquery Hanswers Hempty.
  rewrite (get_column_info_of_table env item_path query t page page_size
             Hquery Hanswers).
  f_equal. f_equal. apply map_ext. intros desc.
  unfold descriptor, first_row_cell. rewrite Hempty.
  destruct (column_index (fst desc) (table_columns t)); reflexivity.
Qed.

(** X23: The schema pages of a file or of a Parquet folder cut the list of
    column descriptors into consecutive windows, in the column order of
    the table: on page [page] with page size [p], the descriptor at
    local index [j < p] is that of column [(page - 1) * p + j], and the
    page has no descriptor at index [p] or beyond; the total is the
    number of columns. *)
Theorem schema_pages_partition_the_columns
        env item_path (t : Table) (page p : Z) :
  1 <= page -> 1 <= p ->
  let descriptors := map (descriptor env (first_row_cell t)) (table_columns t) in
  let served (r : http_result) :=
    exists body page_columns pag,
      r = Return body /\
      get_item body "columns" = Some (JList page_columns) /\
      get_item body "pagination" = Some pag /\
      get_item pag "total" = Some (JInt (len (table_columns t))) /\
      forall j : nat,
        nth_error page_columns j
        = if Z.of_nat j <? p
          then nth_error descriptors (Z.to_nat ((page - 1) * p) + j)
          else None in
  (forall query,
      schema_query item_path = Ok query ->
      answers_schema_queries env query (file_example_query query) t ->
      served (get_column_info env item_path page p)) /\
  (answers_schema_queries env (folder_schema_query item_path)
                          (folder_example_query item_path) t ->
   served (get_parquet_folder_column_info env item_path page p)).
Proof.
  intros Hpage Hp descriptors served.
  assert (Hoff : 0 <= (page - 1) * p) by nia.
  assert (Hserved : served (Return (columns_page descriptors page p))).
  { unfold served, columns_page. do 3 eexists.
    split; [reflexivity|]. split; [reflexivity|]. split; [reflexivity|].
    split.
    - cbn [pagination get_item assoc String.eqb Ascii.eqb Bool.eqb].
      unfold descriptors. rewrite length_map_len. reflexivity.
    - intros j. apply py_slice_nth; lia. }
  split.
  - intros query Hquery Hanswers.
    rewrite (get_column_info_of_table env item_path query t page p Hquery Hanswers).
    exact Hserved.
  - intros Hanswers.
    rewrite (get_parquet_folder_column_info_of_table env item_path t page p Hanswers).
    exact Hserved.
Qed.

Lemma schema_pages_sample :
  exists body page_columns,
    get_column_info Sample.env ["srv"; "data"; "people.parquet"] 2 1 = Return body /\
    get_item body "columns" = Some (JList page_columns) /\
    nth_error page_columns 0
    = Some (JDict [("column_name", JString "nick");
                   ("data_type", JString "VARCHAR");
                   ("example_value", JString "NULL")]).
Proof.
  assert (Hpage : 1 <= 2) by lia.
  assert (Hp : 1 <= 1) by lia.
  destruct (proj1 (schema_pages_partition_the_columns
                     Sample.env ["srv"; "data"; "people.parquet"]
                     Sample.people 2 1 Hpage Hp)
                  Sample.people_probe eq_refl sample_engine_reads_people)
    as (body & page_columns & pag & Hbody & Hcols & _ & _ & Hnth).
  exists body, page_columns. split; [exact Hbody|]. split; [exact Hcols|].
  rewrite (Hnth 0%nat). reflexivity.
Defined.

(** A CSV file with a header and no row, behind an engine that knows
    its schema queries. *)
Module Blank.

Definition path : Path := ["srv"; "data"; "blank.csv"].

Definition table : Table :=
  {| table_columns := [("id", "BIGINT"); ("note", "")];
     table_rows := [] |}.

Definition probe : string := "SELECT * FROM " ++ csv_source path ++ " LIMIT 1".

Definition run_query (q : string) : result QueryResult :=
  if String.eqb q probe then Ok (select_all_limit_1 table)
  else
    match find (fun cd => String.eqb q (file_example_query probe (fst cd)))
               (table_columns table) with
    | Some cd => select_column_limit_1 table (fst cd)
    | None => Raise (DuckDBError "IO Error: No files found that match the pattern")
    end.

Definition env : Env :=
  {| path_exists := fun p => Sample.path_eqb p path || path_exists Sample.env p;
     is_file := fun p => Sample.path_eqb p path || is_file Sample.env p;
     is_dir := is_dir Sample.env;
     listdir := Sample.children;
     resolve := components;
     package_parent := ["srv"; "pkg"];
     load_json := Sample.parse;
     execute := run_query;
     str_value := Sample.show;
     repr_names := Sample.show_names |}.

End Blank.

Lemma schema_of_an_empty_table_sample :
  get_column_info Blank.env Blank.path 1 5
  = Return
      (JDict [("columns",
                JList [JDict [("column_name", JString "id");
                              ("data_type", JString "BIGINT");
                              ("example_value", JString "NULL")];
                       JDict [("column_name", JString "note");
                              ("data_type", JString "unknown");
                              ("example_value", JString "NULL")]]);
              ("count", JInt 2);
              ("pagination",
                pagination (JInt 1) (JInt 5) (JInt 2) (JBool false))]).
Proof.
  assert (Hanswers : answers_schema_queries
                       Blank.env Blank.probe
                       (file_example_query Blank.probe) Blank.table).
  { split; [reflexivity|].
    intros c ty [[= <- <-] | [[= <- <-] | []]]; reflexivity. }
  exact (schema_of_an_empty_table_reports_null
           Blank.env Blank.path Blank.probe Blank.table 1 5
           eq_refl Hanswers eq_refl).
Defined.

(* ================================================================= *)
(** * The earlier module, [duckdb_fastapi/main.py] *)

(** The earlier version of the package has no pagination and no schema
    route: a file is read whole through the engine, and every
    directory is listed.  Its catalog functions are those above. *)
Module Legacy.

Inductive Handler : Type :=
| ReadFile (item_path : Path)
| ReadDirectory (data_path : Path) (item_name : string) (item_path : Path).

Definition supported_suffixes : list string := [".json"; ".csv"; ".parquet"].

(** One of the three branches of [read_file]: a single query, all the
    rows, each row a tuple. *)
Definition read_all (env : Env) (source : string) : result json :=
  result <- execute env ("SELECT * FROM " ++ source) ;;
  let columns := column_names result in
  Ok (JDict [("data", JList (map JList (rows result)));
             ("columns", JList (map JString columns));
             ("count", JInt (len (rows result)))]).

Definition read_file (env : Env) (item_path : Path) : http_result :=
  guarded "Error reading file: "
    (if String.eqb (suffix item_path) ".json" then
       read_all env (json_source item_path)
     else if String.eqb (suffix item_path) ".csv" then
       read_all env (csv_source item_path)
     else if String.eqb (suffix item_path) ".parquet" then
       read_all env (parquet_source item_path)
     else Ok (JDict [("error", JString "Unsupported file format")])).

Definition item_routes (env : Env) (data_path : Path) (last_name : string)
           (item : Path) : list (string * Handler) :=
  let item_name := item_name_of item in
  if is_file env item then
    if existsb (String.eqb (suffix item)) supported_suffixes
    then [("/data/" ++ item_name, ReadFile item)]
    else []
  else if is_dir env item then
    [("/data/" ++ item_name, ReadDirectory data_path last_name item)]
  else [].

Definition _create_endpoints (env : Env) (app : list (string * Handler))
           (data_path : Path) (items : list Path) : list (string * Handler) :=
  let last_name := item_name_of (last items []) in
  (app ++ flat_map (item_routes env data_path last_name) items)%list.

Definition handle (env : Env) (h : Handler) : http_result :=
  match h with
  | ReadFile item_path => read_file env item_path
  | ReadDirectory data_path item_name item_path =>
      read_directory env data_path item_name item_path
  end.

End Legacy.

Lemma legacy_item_paths env data_path last_name item :
  map fst (Legacy.item_routes env data_path last_name item)
  = if is_file env item
    then if existsb (String.eqb (suffix item)) Legacy.supported_suffixes
         then ["/data/" ++ item_name_of item] else []
    else if is_dir env item then ["/data/" ++ item_name_of item] else [].
Proof.
  unfold Legacy.item_routes.
  destruct (is_file env item);
    [destruct (existsb _ _) | destruct (is_dir env item)]; reflexivity.
Qed.

(** X24: Every URL path served by the earlier module for a catalog is
    served by the current one for the same catalog, with or without
    schema routes; the current module serves more (TSV and TXT files,
    schema routes). *)
Theorem current_routes_extend_legacy_routes
        env data_path (items : list Path) (include_schema_cols : bool)
        (path : string) :
  In path (map fst (Legacy._create_endpoints env [] data_path items)) ->
  In path (map fst (_create_endpoints env [] data_path items include_schema_cols)).
Proof.
  unfold Legacy._create_endpoints, _create_endpoints. cbn [app].
  rewrite !in_map_iff.
  intros ([path' h] & Hpath & Hin). cbn [fst] in Hpath. subst path'.
  apply in_flat_map in Hin. destruct Hin as (item & Hitem & Hroute).
  assert (Hlegacy : In path (map fst (Legacy.item_routes
                                        env data_path
                                        (item_name_of (last items [])) item)))
    by (apply in_map_iff; exists (path, h); auto).
  rewrite legacy_item_paths in Hlegacy.
  assert (Hcurrent : In path (map fst (item_routes
                                         env data_path include_schema_cols
                                         (item_name_of (last items [])) item))).
  { unfold item_routes.
    destruct (is_file env item).
    - unfold Legacy.supported_suffixes, supported_suffixes in *.
      revert Hlegacy. generalize (suffix item) as s. intros s.
      cbn [existsb]. by_suffix s; cbn [orb map fst In];
        intros Hl; try (destruct Hl as [Hl | []]); try destruct Hl;
        left; reflexivity.
    - destruct (is_dir env item); [|destruct Hlegacy].
      destruct Hlegacy as [<- | []].
      destruct (_has_parquet_files env item); left; reflexivity. }
  apply in_map_iff in Hcurrent. destruct Hcurrent as ([path' h'] & Hp & Hin').
  exists (path', h'). split; [exact Hp|].
  apply in_flat_map. exists item. auto.
Qed.

Lemma current_routes_extend_legacy_sample :
  In "/data/shards"
     (map fst (_create_endpoints Sample.env [] Sample.data_path
                                 [["srv"; "data"; "shards"]] false)).
Proof.
  apply (current_routes_extend_legacy_routes
           Sample.env Sample.data_path [["srv"; "data"; "shards"]] false
           "/data/shards").
  left. reflexivity.
Defined.

(* ================================================================= *)
(** ** [has_next] and the next page *)

(** X6: For a JSON list that is not served whole, [has_next] on a page is
    true exactly when the following page carries at least one row. *)
Theorem json_has_next_announces_a_row
        env item_path (items : list json) (page p : Z) :
  suffix item_path = ".json" ->
  load_json env item_path = Ok (JList items) ->
  small_json (JList items) = false ->
  1 <= page -> 1 <= p ->
  exists body pag next (has_next : bool) (next_count : Z),
    read_file env item_path page p = Return body /\
    get_item body "pagination" = Some pag /\
    get_item pag "has_next" = Some (JBool has_next) /\
    read_file env item_path (page + 1) p = Return next /\
    get_item next "count" = Some (JInt next_count) /\
    (has_next = true <-> 0 < next_count).
Proof.
  intros Hsuf Hload Hlarge Hpage Hp.
  rewrite (read_file_json_list_large env item_path page p items Hsuf Hload Hlarge).
  rewrite (read_file_json_list_large env item_path (page + 1) p items
             Hsuf Hload Hlarge).
  cbv zeta. do 5 eexists.
  split; [reflexivity|]. split; [reflexivity|]. split; [reflexivity|].
  split; [reflexivity|]. split; [reflexivity|].
  assert (Hoff : 0 <= (page - 1) * p) by nia.
  rewrite (len_py_slice items ((page + 1 - 1) * p) p) by nia.
  rewrite Z.ltb_lt. pose proof (len_nonneg items). nia.
Qed.

Lemma json_has_next_sample :
  exists body pag next (has_next : bool) (next_count : Z),
    read_file Sample.env ["srv"; "data"; "events.json"] 2 100 = Return body /\
    get_item body "pagination" = Some pag /\
    get_item pag "has_next" = Some (JBool has_next) /\
    read_file Sample.env ["srv"; "data"; "events.json"] (2 + 1) 100 = Return next /\
    get_item next "count" = Some (JInt next_count) /\
    (has_next = true <-> 0 < next_count).
Proof.
  assert (Hpage : 1 <= 2) by lia.
  assert (Hp : 1 <= 100) by lia.
  exact (json_has_next_announces_a_row
           Sample.env ["srv"; "data"; "events.json"]
           (repeat (JDict [("id", JInt 0)]) 250) 2 100
           eq_refl eq_refl eq_refl Hpage Hp).
Defined.
